(** * unyt_expense_tracker: the expense and budget stores and the budget
      evaluation engine

    A shallow embedding of the two [ExpenseManager] classes of the
    repository,

    - [terminal_version/expense_tracker.py]             (module [Terminal]),
    - [streamlit_browser_version/streamlit_cloud_app.py] (module [Streamlit]),

    followed by the properties the specification states about them.

    Modelling conventions.

    - A pandas DataFrame with the default [RangeIndex] is the list of its
      rows; the row label is the list position.  Every write of the source
      keeps the index a [RangeIndex] ([ignore_index=True],
      [reset_index(drop=True)]).
    - Amounts are exact rationals ([Q]): binary64 rounding error and overflow
      are abstracted, but the IEEE special values that a division by zero
      produces are kept ([float64] below), because the comparison table
      depends on them.
    - Dates are timestamps on one linear scale ([Z]).  In the budget
      table of the browser version an absent [end_date] ([NaT]) is [None];
      a budget dict of the terminal version holds Python's [None], a
      timestamp or [NaT] ([Terminal.BudgetDict]).
    - Strings are sequences of characters; the text searches are modelled
      on ASCII text.
    - Keyword arguments and filter values are well typed: a key that names
      a column comes with a value of the column's type ([kwarg],
      [filter_item]), a key that names nothing with any value.
    - Two pandas calls are not code of the repository.  [sort_values] is an
      interface with the contract of its default sort ([Pandas]);
      [str.contains] is modelled on ASCII text and the patterns made of
      ordinary ASCII characters and ['.'] ([re_compile]).
    - Persistence ([_save_expenses], [_save_budgets], [st.session_state]) only
      mirrors the in-memory stores and is left out; what a method prints or
      returns is its result. *)

From Stdlib Require Import ZArith QArith Qround String Ascii.
From stdpp Require Import base list strings sorting.

Open Scope string_scope.
Open Scope list_scope.

(** ** Data model *)

(** [class Expense]: one row of the expense table. *)
Record Expense : Type := mkExpense {
  amount : Q;
  date : Z;
  category : string;
  description : string;
  payment_method : string;
  tags : string
}.

(** One budget: a row of the browser version's [budgets_df], and a budget
    as the specification has it.  The keys ['category'] and ['amount'] are
    prefixed because [Expense] has fields of the same name.  An
    [end_date] that is absent is [None]: the [NaT] that [add_budget] and
    [edit_budget] store.  (The dicts of the terminal version are
    [Terminal.BudgetDict].) *)
Record Budget : Type := mkBudget {
  budget_category : string;
  budget_amount : Q;
  period : string;
  start_date : Z;
  end_date : option Z
}.

(** A Python value of no particular type, for the arguments that the code
    never looks at (values of unknown keys). *)
Inductive pyvalue : Type :=
| PyNone
| PyNum (q : Q)
| PyDate (d : Z)
| PyStr (s : string).

(** The exceptions the modelled methods can raise. *)
Inductive exception : Type :=
| IndexError
| KeyError
| TypeError.

(** The result of a call: a returned value, a raised exception, or
    [Unmodelled] when the call leaves what is modelled of pandas: the
    fragment of the regular-expression syntax that [re_compile] below
    covers, and searches in ASCII text. *)
Inductive outcome (A : Type) : Type :=
| Returns (a : A)
| Raises (e : exception)
| Unmodelled.

Arguments Returns {A} a.
Arguments Raises {A} e.
Arguments Unmodelled {A}.

#[global] Instance outcome_ret : MRet outcome := fun _ a => Returns a.

#[global] Instance outcome_bind : MBind outcome := fun _ _ k m =>
  match m with
  | Returns a => k a
  | Raises e => Raises e
  | Unmodelled => Unmodelled
  end.

(** [len(df)] *)
Definition len {A : Type} (l : list A) : Z := Z.of_nat (length l).

(** [df.empty] *)
Definition empty {A : Type} (l : list A) : bool :=
  match l with
  | [] => true
  | _ :: _ => false
  end.

(** [Series.sum()]: the sum of a column, 0 for an empty one. *)
Definition sum (xs : list Q) : Q := foldl Qplus 0%Q xs.

(** [a > b] on amounts. *)
Definition Qgtb (a b : Q) : bool := negb (Qle_bool a b).

(** *** The columns of the expense table *)

Inductive column : Type :=
| col_amount
| col_date
| col_category
| col_description
| col_payment_method
| col_tags.

(** [self.df.columns], each name with the column it denotes. *)
Definition columns : list (string * column) :=
  [ ("amount", col_amount); ("date", col_date); ("category", col_category);
    ("description", col_description); ("payment_method", col_payment_method);
    ("tags", col_tags) ].

Fixpoint assoc {A : Type} (key : string) (l : list (string * A)) : option A :=
  match l with
  | [] => None
  | (k, a) :: rest => if String.eqb key k then Some a else assoc key rest
  end.

(** [key in self.df.columns], with the column found. *)
Definition column_of (key : string) : option column := assoc key columns.

(** The type of the values a cell of a column holds; a key that names no
    column comes with an arbitrary value. *)
Definition cell (c : option column) : Type :=
  match c with
  | Some col_amount => Q
  | Some col_date => Z
  | Some _ => string
  | None => pyvalue
  end.

(** One [key=value] pair of [**kwargs]. *)
Record kwarg : Type := mkKwarg {
  key : string;
  value : cell (column_of key)
}.

(** [row[c]] *)
Definition get_cell (c : column) : Expense -> cell (Some c) :=
  match c with
  | col_amount => amount
  | col_date => date
  | col_category => category
  | col_description => description
  | col_payment_method => payment_method
  | col_tags => tags
  end.

(** [row[c] = v] *)
Definition set_cell (c : column) : cell (Some c) -> Expense -> Expense :=
  match c with
  | col_amount => fun v e =>
      mkExpense v (date e) (category e) (description e) (payment_method e) (tags e)
  | col_date => fun v e =>
      mkExpense (amount e) v (category e) (description e) (payment_method e) (tags e)
  | col_category => fun v e =>
      mkExpense (amount e) (date e) v (description e) (payment_method e) (tags e)
  | col_description => fun v e =>
      mkExpense (amount e) (date e) (category e) v (payment_method e) (tags e)
  | col_payment_method => fun v e =>
      mkExpense (amount e) (date e) (category e) (description e) v (tags e)
  | col_tags => fun v e =>
      mkExpense (amount e) (date e) (category e) (description e) (payment_method e) v
  end.

(** [pd.to_datetime(value)] and [float(value)] on a value that already is a
    timestamp, respectively a number. *)
Definition to_datetime (d : Z) : Z := d.
Definition float (x : Q) : Q := x.

(** *** The columns of the budget table (browser version) *)

Inductive budget_column : Type :=
| bcol_category
| bcol_amount
| bcol_period
| bcol_start_date
| bcol_end_date.

Definition budget_columns : list (string * budget_column) :=
  [ ("category", bcol_category); ("amount", bcol_amount); ("period", bcol_period);
    ("start_date", bcol_start_date); ("end_date", bcol_end_date) ].

Definition budget_column_of (key : string) : option budget_column :=
  assoc key budget_columns.

(** A [start_date] is always given as a date; an [end_date] may be given as
    [None] or another falsy value, which [edit_budget] stores as [NaT]. *)
Definition budget_cell (c : option budget_column) : Type :=
  match c with
  | Some bcol_amount => Q
  | Some bcol_start_date => Z
  | Some bcol_end_date => option Z
  | Some _ => string
  | None => pyvalue
  end.

Record budget_kwarg : Type := mkBudgetKwarg {
  budget_key : string;
  budget_value : budget_cell (budget_column_of budget_key)
}.

Definition set_budget_cell (c : budget_column)
  : budget_cell (Some c) -> Budget -> Budget :=
  match c with
  | bcol_category => fun v b =>
      mkBudget v (budget_amount b) (period b) (start_date b) (end_date b)
  | bcol_amount => fun v b =>
      mkBudget (budget_category b) v (period b) (start_date b) (end_date b)
  | bcol_period => fun v b =>
      mkBudget (budget_category b) (budget_amount b) v (start_date b) (end_date b)
  | bcol_start_date => fun v b =>
      mkBudget (budget_category b) (budget_amount b) (period b) v (end_date b)
  | bcol_end_date => fun v b =>
      mkBudget (budget_category b) (budget_amount b) (period b) (start_date b) v
  end.

(** *** Regular-expression search, as far as the filters need it

    [Series.str.contains(pat, case=..., na=False)] is called with its
    default [regex=True]: the filter string is compiled with [re.compile]
    and every cell is tried with [regex.search].  The model covers the
    patterns built from ordinary characters and ['.']; a pattern with any
    other metacharacter is outside it ([re_compile] gives [None]). *)

Inductive token : Type :=
| Lit (c : ascii)
| AnyChar.

(** The characters of a string. *)
Definition chars (s : string) : list ascii := list_ascii_of_string s.

Definition metacharacters : list ascii := chars ".^$*+?{}[]\|()".

Definition is_meta (c : ascii) : bool := existsb (Ascii.eqb c) metacharacters.

(** A character of ASCII: its code is below 128. *)
Definition is_ascii (c : ascii) : bool := (N_of_ascii c <? 128)%N.

(** A text of ASCII characters. *)
Definition ascii_text (s : string) : bool := forallb is_ascii (chars s).

(** [re.compile(pat)], for a pattern of ordinary ASCII characters and
    ['.']; nothing for another pattern. *)
Fixpoint re_compile (pat : list ascii) : option (list token) :=
  match pat with
  | [] => Some []
  | c :: rest =>
      if Ascii.eqb c "." then cons AnyChar <$> re_compile rest
      else if is_meta c || negb (is_ascii c) then None
      else cons (Lit c) <$> re_compile rest
  end.

(** ASCII lower case, the case folding of [re.IGNORECASE] on ASCII text. *)
Definition lower (c : ascii) : ascii :=
  let n := N_of_ascii c in
  if ((65 <=? n) && (n <=? 90))%N then ascii_of_N (n + 32) else c.

Definition newline : ascii := ascii_of_N 10.

Definition token_matches (ignorecase : bool) (t : token) (x : ascii) : bool :=
  match t with
  | AnyChar => negb (Ascii.eqb x newline)
  | Lit c => if ignorecase then Ascii.eqb (lower c) (lower x) else Ascii.eqb c x
  end.

(** The pattern matches at the start of [s]. *)
Fixpoint match_here (ignorecase : bool) (re : list token) (s : list ascii) : bool :=
  match re, s with
  | [], _ => true
  | t :: re', x :: s' => token_matches ignorecase t x && match_here ignorecase re' s'
  | _ :: _, [] => false
  end.

(** [regex.search(s) is not None]: the pattern matches somewhere in [s]. *)
Fixpoint re_search (ignorecase : bool) (re : list token) (s : list ascii) : bool :=
  match_here ignorecase re s ||
  match s with
  | _ :: s' => re_search ignorecase re s'
  | [] => false
  end.

(** [column.str.contains(pat, case=case, na=False)] as the test it applies
    to each cell of the column, once the pattern compiles; nothing for a
    column that holds text outside ASCII, where a character is not one
    byte and [re.IGNORECASE] folds more than the letters A to Z. *)
Definition str_contains (column : list string) (pat : string) (case : bool)
  : option (string -> bool) :=
  re ← re_compile (chars pat);
  if forallb ascii_text column
  then Some (fun s => re_search (negb case) re (chars s))
  else None.

(** *** The filters of [view_expenses] *)

Inductive filter_key : Type :=
| fk_date_range
| fk_amount_range
| fk_category
| fk_payment_method
| fk_tags.

(** The [if key == ... elif key == ...] chain. *)
Definition filter_key_of (key : string) : option filter_key :=
  if String.eqb key "date_range" then Some fk_date_range
  else if String.eqb key "amount_range" then Some fk_amount_range
  else if String.eqb key "category" then Some fk_category
  else if String.eqb key "payment_method" then Some fk_payment_method
  else if String.eqb key "tags" then Some fk_tags
  else None.

(** The value that comes with a filter key: a range is [None] or a pair of
    bounds, a text filter is a string (the empty one is falsy). *)
Definition filter_arg (k : option filter_key) : Type :=
  match k with
  | Some fk_date_range => option (Z * Z)
  | Some fk_amount_range => option (Q * Q)
  | Some _ => string
  | None => pyvalue
  end.

(** One item of the [filters] dict; the dict is the list of its items in
    iteration order, [None] and [{}] are the empty list. *)
Record filter_item : Type := mkFilter {
  filter_name : string;
  filter_value : filter_arg (filter_key_of filter_name)
}.

(** A [for] loop whose body may raise. *)
Fixpoint for_each {A B : Type} (body : A -> B -> outcome A) (a : A) (l : list B)
  : outcome A :=
  match l with
  | [] => Returns a
  | x :: rest => a' ← body a x; for_each body a' rest
  end.

(** *** [DataFrame.sort_values(by=c)] *)

(** The ascending order of a column: numbers and timestamps by value,
    strings lexicographically by character code. *)
Definition key_leb (c : column) (a b : Expense) : bool :=
  match c with
  | col_amount => Qle_bool (amount a) (amount b)
  | col_date => (date a <=? date b)%Z
  | col_category => String.leb (category a) (category b)
  | col_description => String.leb (description a) (description b)
  | col_payment_method => String.leb (payment_method a) (payment_method b)
  | col_tags => String.leb (tags a) (tags b)
  end.

Definition key_le (c : column) (a b : Expense) : Prop := key_leb c a b = true.

(** What the code relies on from pandas: [sort_values] is called with the
    default [kind='quicksort'], which returns the rows in ascending order
    of the column and promises nothing about the order of ties (only
    [kind='mergesort'] and [kind='stable'] do).  The sorting algorithm is
    pandas' and numpy's, not the repository's, so it is an interface
    here. *)
Class Pandas : Type := {
  sort_values : column -> list Expense -> list Expense;
  sort_values_sorted : forall c df, Sorted (key_le c) (sort_values c df);
  sort_values_perm : forall c df, sort_values c df ≡ₚ df
}.

(** A sorting function to instantiate the interface with: insertion sort
    that puts a row before the rows it ties with. *)
Fixpoint insert_before (c : column) (x : Expense) (l : list Expense) : list Expense :=
  match l with
  | [] => [x]
  | y :: rest => if key_leb c x y then x :: y :: rest else y :: insert_before c x rest
  end.

Definition stable_sort (c : column) (df : list Expense) : list Expense :=
  foldr (insert_before c) [] df.

(** *** Arithmetic of the comparison table *)

(** A float64 cell that can hold the IEEE special values. *)
Inductive float64 : Type :=
| Finite (q : Q)
| PosInf
| NegInf
| NaN.

(** [a / b] on float64 columns: a zero divisor gives an infinity or NaN and
    raises nothing. *)
Definition truediv (a b : Q) : float64 :=
  if Qeq_bool b 0 then
    if Qgtb a 0 then PosInf else if Qgtb 0 a then NegInf else NaN
  else Finite (a / b).

(** [x * 100] *)
Definition times100 (x : float64) : float64 :=
  match x with
  | Finite q => Finite (q * 100)
  | other => other
  end.

(** [numpy.rint]: the nearest integer, halves to the even one. *)
Definition rint (q : Q) : Z :=
  let n := Qfloor q in
  match (q - inject_Z n ?= 1 # 2)%Q with
  | Lt => n
  | Gt => (n + 1)%Z
  | Eq => if Z.even n then n else (n + 1)%Z
  end.

(** [Series.round(1)]: [rint(x * 10) / 10], special values unchanged. *)
Definition round1 (x : float64) : float64 :=
  match x with
  | Finite q => Finite (Qred (rint (q * 10) # 10))
  | other => other
  end.

(** [Series.fillna(0)]: only NaN is replaced. *)
Definition fillna0 (x : float64) : float64 :=
  match x with
  | NaN => Finite 0
  | other => other
  end.

(** One row of the budget-vs-actual table. *)
Record ComparisonRow : Type := mkRow {
  row_category : string;
  row_budget : Q;
  row_actual : Q;
  row_difference : Q;
  row_percentage : float64
}.

(** The column operations that finish the table, on one merged row: the
    column amount renamed to budget, [actual.fillna(0)], the difference,
    the percentage, and the label "overall" replaced by "Overall". *)
Definition table_row (r : string * Q * option Q) : ComparisonRow :=
  let '(category, budget, merged) := r in
  let actual := match merged with Some a => a | None => 0%Q end in
  mkRow (if String.eqb category "overall" then "Overall" else category)
        budget actual (actual - budget)
        (fillna0 (round1 (times100 (truediv actual budget)))).

(** [left.merge(right, on='category', how='left')] for a left frame with the
    columns category and amount and a right frame with the columns category
    and actual: every left row once per right row of the same category, in
    order, and once with a missing actual when there is none. *)
Definition merge_left (left : list (string * Q)) (right : list (string * Q))
  : list (string * Q * option Q) :=
  flat_map (fun l =>
    match List.filter (fun r => String.eqb (fst r) (fst l)) right with
    | [] => [(fst l, snd l, None)]
    | matches => map (fun r => (fst l, snd l, Some (snd r))) matches
    end) left.

(** *** Timestamps

    A value of a datetime column or of [pd.to_datetime]: a timestamp, or
    [NaT] where there is none. *)
Inductive datetime : Type :=
| Timestamp (t : Z)
| NaT.

(** [column <= end] on one row: false against [NaT]. *)
Definition le_datetime (d : Z) (end_ : datetime) : bool :=
  match end_ with
  | Timestamp t => (d <=? t)%Z
  | NaT => false
  end.

(** ** The terminal version: [terminal_version/expense_tracker.py] *)

Module Terminal.

(** One dict of [self.budgets].  Under ['end_date'] it holds [None]
    where [set_budget] was given no end date, and a timestamp or [NaT]
    where [_load_budgets] read the dict from the file: [_save_budgets]
    writes [None] as an empty cell, which [pd.to_datetime] reads back as
    [NaT]. *)
Record BudgetDict : Type := mkDict {
  dict_category : string;
  dict_amount : Q;
  dict_period : string;
  dict_start_date : Z;
  dict_end_date : option datetime
}.

(** The state of an [ExpenseManager]: the expense table and the list of
    budget dicts. *)
Record ExpenseManager : Type := mkManager {
  df : list Expense;
  budgets : list BudgetDict
}.

(** What one alert line prints: the category, the period, the budget and
    the amount spent. *)
Definition Alert : Type := string * string * Q * Q.

(** The amount [spent] that one turn of the loop of [_check_budget_alerts]
    computes.  [now] is the reading of [datetime.now()].  The test
    [if budget['end_date']] fails for [None] and passes for a timestamp
    and for [NaT]; [pd.to_datetime] leaves both as they are. *)
Definition spent_of (now : Z) (df : list Expense) (budget : BudgetDict) : Q :=
  let cat := dict_category budget in
  let start := to_datetime (dict_start_date budget) in
  let end_ := match dict_end_date budget with
              | Some d => d
              | None => Timestamp now
              end in
  if String.eqb cat "overall" then
    sum (amount <$> List.filter
           (fun e => (start <=? date e)%Z && le_datetime (date e) end_) df)
  else
    sum (amount <$> List.filter
           (fun e => (start <=? date e)%Z && le_datetime (date e) end_
                     && String.eqb (category e) cat) df).

(** [_check_budget_alerts]: the alerts printed, in order. *)
Definition _check_budget_alerts (now : Z) (self : ExpenseManager) : list Alert :=
  foldl (fun printed budget =>
    let cat := dict_category budget in
    let period_amount := dict_amount budget in
    let spent := spent_of now (df self) budget in
    if Qgtb spent period_amount
    then printed ++ [(cat, dict_period budget, period_amount, spent)]
    else printed) [] (budgets self).

(** [add_expense] *)
Definition add_expense (now : Z) (expense : Expense) (self : ExpenseManager)
  : outcome (list Alert) * ExpenseManager :=
  let self' := mkManager (df self ++ [expense]) (budgets self) in
  (Returns (_check_budget_alerts now self'), self').

(** One turn of the loop of [edit_expense]. *)
Definition edit_step (index : nat) (df : list Expense) (kw : kwarg) : list Expense :=
  match column_of (key kw) as c return cell c -> list Expense with
  | Some col_date => fun value => alter (set_cell col_date (to_datetime value)) index df
  | Some col_amount => fun value => alter (set_cell col_amount (float value)) index df
  | Some c => fun value => alter (set_cell c value) index df
  | None => fun _ => df
  end (value kw).

(** [edit_expense] *)
Definition edit_expense (now : Z) (index : Z) (kwargs : list kwarg)
  (self : ExpenseManager) : outcome (list Alert) * ExpenseManager :=
  if (index <? 0)%Z || (len (df self) <=? index)%Z then (Raises IndexError, self)
  else
    let self' := mkManager (foldl (edit_step (Z.to_nat index)) (df self) kwargs)
                           (budgets self) in
    (Returns (_check_budget_alerts now self'), self').

(** [delete_expense] *)
Definition delete_expense (now : Z) (index : Z) (self : ExpenseManager)
  : outcome (list Alert) * ExpenseManager :=
  if (index <? 0)%Z || (len (df self) <=? index)%Z then (Raises IndexError, self)
  else
    let self' := mkManager (delete (Z.to_nat index) (df self)) (budgets self) in
    (Returns (_check_budget_alerts now self'), self').

(** One turn of the filter loop of [view_expenses]. *)
Definition apply_filter (df_view : list Expense) (f : filter_item)
  : outcome (list Expense) :=
  match filter_key_of (filter_name f) as k return filter_arg k -> outcome (list Expense) with
  | Some fk_date_range => fun value =>
      match value with
      | Some (start, end_) =>
          Returns (List.filter (fun e => (to_datetime start <=? date e)%Z
                                         && (date e <=? to_datetime end_)%Z) df_view)
      | None => Raises TypeError
      end
  | Some fk_amount_range => fun value =>
      match value with
      | Some (min_amt, max_amt) =>
          Returns (List.filter (fun e => Qle_bool min_amt (amount e)
                                         && Qle_bool (amount e) max_amt) df_view)
      | None => Raises TypeError
      end
  | Some fk_category => fun value =>
      Returns (List.filter (fun e => String.eqb (category e) value) df_view)
  | Some fk_payment_method => fun value =>
      Returns (List.filter (fun e => String.eqb (payment_method e) value) df_view)
  | Some fk_tags => fun value =>
      match str_contains (tags <$> df_view) value true with
      | Some found => Returns (List.filter (fun e => found (tags e)) df_view)
      | None => Unmodelled
      end
  | None => fun _ => Returns df_view
  end (filter_value f).

(** [view_expenses]; an empty [sort_by] is falsy like [None]. *)
Definition view_expenses `{Pandas} (filters : list filter_item)
  (sort_by : option string) (self : ExpenseManager) : outcome (list Expense) :=
  df_view ← for_each apply_filter (df self) filters;
  match sort_by with
  | Some name =>
      if String.eqb name "" then Returns df_view
      else match column_of name with
           | Some c => Returns (sort_values c df_view)
           | None => Raises KeyError
           end
  | None => Returns df_view
  end.

(** [set_budget]; [today] is the reading of [datetime.now().date()], and
    the end date given is [None] or a date. *)
Definition set_budget (now today : Z) (category : string) (amount : Q)
  (period : string) (start_date end_date : option Z) (self : ExpenseManager)
  : outcome (list Alert) * ExpenseManager :=
  let budget := mkDict (if String.eqb category "" then "overall" else category)
                       amount period
                       (match start_date with Some d => d | None => today end)
                       (Timestamp <$> end_date) in
  let self' := mkManager (df self) (budgets self ++ [budget]) in
  (Returns (_check_budget_alerts now self'), self').

End Terminal.

(** ** The browser version: [streamlit_browser_version/streamlit_cloud_app.py] *)

Module Streamlit.

(** The state of an [ExpenseManager]: the two tables of the session. *)
Record ExpenseManager : Type := mkManager {
  expenses_df : list Expense;
  budgets_df : list Budget
}.

(** What one alert message reports: the category, the budget and the
    amount spent. *)
Definition Alert : Type := string * Q * Q.

(** [add_expense] *)
Definition add_expense (expense : Expense) (self : ExpenseManager)
  : outcome string * ExpenseManager :=
  let new_row := set_cell col_date (to_datetime (date expense)) expense in
  (Returns "Expense added successfully!",
   mkManager (expenses_df self ++ [new_row]) (budgets_df self)).

(** One turn of the loop of [edit_expense]. *)
Definition edit_step (index : nat) (df : list Expense) (kw : kwarg) : list Expense :=
  match column_of (key kw) as c return cell c -> list Expense with
  | Some col_date => fun value => alter (set_cell col_date (to_datetime value)) index df
  | Some c => fun value => alter (set_cell c value) index df
  | None => fun _ => df
  end (value kw).

(** [edit_expense] *)
Definition edit_expense (index : Z) (kwargs : list kwarg) (self : ExpenseManager)
  : outcome string * ExpenseManager :=
  if (index <? 0)%Z || (len (expenses_df self) <=? index)%Z
  then (Raises IndexError, self)
  else (Returns "Expense edited successfully!",
        mkManager (foldl (edit_step (Z.to_nat index)) (expenses_df self) kwargs)
                  (budgets_df self)).

(** [delete_expense] *)
Definition delete_expense (index : Z) (self : ExpenseManager)
  : outcome string * ExpenseManager :=
  if (index <? 0)%Z || (len (expenses_df self) <=? index)%Z
  then (Raises IndexError, self)
  else (Returns "Expense deleted successfully!",
        mkManager (delete (Z.to_nat index) (expenses_df self)) (budgets_df self)).

(** One turn of the filter loop of [view_expenses].  A range that is given
    is a pair of bounds, so the inner tests [if start and end] and
    [if min_amt is not None and max_amt is not None] pass. *)
Definition apply_filter (df_view : list Expense) (f : filter_item)
  : outcome (list Expense) :=
  match filter_key_of (filter_name f) as k return filter_arg k -> outcome (list Expense) with
  | Some fk_date_range => fun value =>
      match value with
      | Some (start, end_) =>
          Returns (List.filter (fun e => (to_datetime start <=? date e)%Z
                                         && (date e <=? to_datetime end_)%Z) df_view)
      | None => Returns df_view
      end
  | Some fk_amount_range => fun value =>
      match value with
      | Some (min_amt, max_amt) =>
          Returns (List.filter (fun e => Qle_bool min_amt (amount e)
                                         && Qle_bool (amount e) max_amt) df_view)
      | None => Returns df_view
      end
  | Some fk_category => fun value =>
      if String.eqb value "" then Returns df_view
      else match str_contains (category <$> df_view) value false with
           | Some found => Returns (List.filter (fun e => found (category e)) df_view)
           | None => Unmodelled
           end
  | Some fk_payment_method => fun value =>
      if String.eqb value "" then Returns df_view
      else Returns (List.filter (fun e => String.eqb (payment_method e) value) df_view)
  | Some fk_tags => fun value =>
      if String.eqb value "" then Returns df_view
      else match str_contains (tags <$> df_view) value false with
           | Some found => Returns (List.filter (fun e => found (tags e)) df_view)
           | None => Unmodelled
           end
  | None => fun _ => Returns df_view
  end (filter_value f).

(** [view_expenses]; an empty [sort_by] is falsy like [None]. *)
Definition view_expenses `{Pandas} (filters : list filter_item)
  (sort_by : option string) (self : ExpenseManager) : outcome (list Expense) :=
  df_view ← for_each apply_filter (expenses_df self) filters;
  match sort_by with
  | Some name =>
      if String.eqb name "" then Returns df_view
      else match column_of name with
           | Some c => Returns (sort_values c df_view)
           | None => Raises KeyError
           end
  | None => Returns df_view
  end.

(** [add_budget]; [today] is the reading of [date.today()]. *)
Definition add_budget (today : Z) (category : string) (amount : Q) (period : string)
  (start_date end_date : option Z) (self : ExpenseManager)
  : outcome string * ExpenseManager :=
  let new_budget := mkBudget (if String.eqb category "" then "overall" else category)
                             amount period
                             (to_datetime (match start_date with
                                           | Some d => d
                                           | None => today
                                           end))
                             (match end_date with
                              | Some d => Some (to_datetime d)
                              | None => None
                              end) in
  (Returns "Budget added successfully!",
   mkManager (expenses_df self) (budgets_df self ++ [new_budget])).

(** One turn of the loop of [edit_budget]. *)
Definition edit_budget_step (index : nat) (df : list Budget) (kw : budget_kwarg)
  : list Budget :=
  match budget_column_of (budget_key kw) as c return budget_cell c -> list Budget with
  | Some bcol_start_date => fun value =>
      alter (set_budget_cell bcol_start_date (to_datetime value)) index df
  | Some bcol_end_date => fun value =>
      let value := match value with
                   | Some d => Some (to_datetime d)
                   | None => None
                   end in
      alter (set_budget_cell bcol_end_date value) index df
  | Some c => fun value => alter (set_budget_cell c value) index df
  | None => fun _ => df
  end (budget_value kw).

(** [edit_budget] *)
Definition edit_budget (index : Z) (kwargs : list budget_kwarg) (self : ExpenseManager)
  : outcome string * ExpenseManager :=
  if (index <? 0)%Z || (len (budgets_df self) <=? index)%Z
  then (Raises IndexError, self)
  else (Returns "Budget edited successfully!",
        mkManager (expenses_df self)
                  (foldl (edit_budget_step (Z.to_nat index)) (budgets_df self) kwargs)).

(** [delete_budget] *)
Definition delete_budget (index : Z) (self : ExpenseManager)
  : outcome string * ExpenseManager :=
  if (index <? 0)%Z || (len (budgets_df self) <=? index)%Z
  then (Raises IndexError, self)
  else (Returns "Budget deleted successfully!",
        mkManager (expenses_df self) (delete (Z.to_nat index) (budgets_df self))).

(** The amount spent under one budget up to [today]: the body shared by the
    loops of [get_alerts] and [get_budget_vs_actual]. *)
Definition spent_of (today : Z) (expenses_df : list Expense) (budget : Budget) : Q :=
  let start := start_date budget in
  let end_ := match end_date budget with
              | Some d => d
              | None => today
              end in
  let mask := fun e => (start <=? date e)%Z && (date e <=? end_)%Z in
  if String.eqb (budget_category budget) "overall" then
    sum (amount <$> List.filter mask expenses_df)
  else
    sum (amount <$> List.filter
           (fun e => mask e && String.eqb (category e) (budget_category budget))
           expenses_df).

(** [get_alerts]; [today] is the reading of [date.today()]. *)
Definition get_alerts (today : Z) (self : ExpenseManager) : list Alert :=
  foldl (fun alerts budget =>
    let cat := budget_category budget in
    let budget_amount := budget_amount budget in
    let spent := spent_of today (expenses_df self) budget in
    if Qgtb spent budget_amount
    then alerts ++ [(cat, budget_amount, spent)]
    else alerts) [] (budgets_df self).

(** The mask that selects [active_budgets]. *)
Definition is_active (today : Z) (budget : Budget) : bool :=
  String.eqb (period budget) "monthly"
  && (start_date budget <=? today)%Z
  && (match end_date budget with Some d => (today <=? d)%Z | None => false end
      || match end_date budget with Some _ => false | None => true end).

(** [get_budget_vs_actual]: the rows of the table returned; the empty
    [pd.DataFrame()] has none. *)
Definition get_budget_vs_actual (today : Z) (self : ExpenseManager)
  : list ComparisonRow :=
  if empty (budgets_df self) || empty (expenses_df self) then []
  else
    let active_budgets := List.filter (is_active today) (budgets_df self) in
    if empty active_budgets then []
    else
      let actual_list :=
        map (fun budget =>
               let spent := spent_of today (expenses_df self) budget in
               if String.eqb (budget_category budget) "overall"
               then ("Overall", spent)
               else (budget_category budget, spent)) active_budgets in
      let comparison :=
        merge_left (map (fun b => (budget_category b, budget_amount b)) active_budgets)
                   actual_list in
      map table_row comparison.

End Streamlit.

(** ** The vocabulary of the specification

    The definitions of this part follow the words of the specification;
    the theorems below compare them with the code. *)

#[global] Instance Qlt_decision (a b : Q) : Decision (a < b)%Q :=
  match Qlt_le_dec a b with
  | left H => left H
  | right H => right (Qle_not_lt _ _ H)
  end.

#[global] Instance Qle_decision (a b : Q) : Decision (a <= b)%Q :=
  match Qlt_le_dec b a with
  | left H => right (Qlt_not_le _ _ H)
  | right H => left H
  end.

#[global] Instance Qeq_decision (a b : Q) : Decision (a == b)%Q := Qeq_dec a b.

(** *** Budget evaluation *)

(** The evaluation window is [start_date, end_date if present else today],
    both ends included. *)
Definition in_window (today : Z) (b : Budget) (e : Expense) : Prop :=
  (start_date b <= date e <= default today (end_date b))%Z.

(** The budget ["overall"] matches every expense, any other budget the
    expenses of exactly its category. *)
Definition category_matches (b : Budget) (e : Expense) : Prop :=
  budget_category b = "overall" \/ category e = budget_category b.

Definition selected (today : Z) (b : Budget) (e : Expense) : Prop :=
  in_window today b e /\ category_matches b e.

#[global] Instance selected_dec today b e : Decision (selected today b e).
Proof. unfold selected, in_window, category_matches. apply _. Defined.

(** The amount spent under a budget: the sum over the selected expenses. *)
Definition spent (today : Z) (expenses : list Expense) (b : Budget) : Q :=
  sum (amount <$> filter (selected today b) expenses).

Definition overspent (today : Z) (expenses : list Expense) (b : Budget) : Prop :=
  (budget_amount b < spent today expenses b)%Q.

#[global] Instance overspent_dec today expenses b : Decision (overspent today expenses b).
Proof. unfold overspent. apply _. Defined.

(** The budget that a dict of the terminal version stands for: its end
    date is present when the dict holds a timestamp, and absent when it
    holds [None] or [NaT]. *)
Definition budget_of (d : Terminal.BudgetDict) : Budget :=
  mkBudget (Terminal.dict_category d) (Terminal.dict_amount d) (Terminal.dict_period d)
           (Terminal.dict_start_date d)
           (match Terminal.dict_end_date d with
            | Some (Timestamp t) => Some t
            | _ => None
            end).

(** The dict that holds a budget in memory, as [set_budget] makes it. *)
Definition in_memory (b : Budget) : Terminal.BudgetDict :=
  Terminal.mkDict (budget_category b) (budget_amount b) (period b) (start_date b)
                  (Timestamp <$> end_date b).

(** A dict read from the file without end date. *)
Definition read_without_end (d : Terminal.BudgetDict) : Prop :=
  Terminal.dict_end_date d = Some NaT.

#[global] Instance datetime_eq_dec : EqDecision datetime.
Proof. solve_decision. Defined.

#[global] Instance read_without_end_dec d : Decision (read_without_end d).
Proof. unfold read_without_end. apply _. Defined.

(** The amount that the terminal version takes as spent under a dict: the
    spent amount of the budget, but 0 for a dict read without end date. *)
Definition spent_terminal (now : Z) (expenses : list Expense) (d : Terminal.BudgetDict)
  : Q :=
  if decide (read_without_end d) then 0%Q else spent now expenses (budget_of d).

(** *** The comparison table *)

(** A budget is active when it is monthly and its window contains today. *)
Definition active (today : Z) (b : Budget) : Prop :=
  period b = "monthly" /\ (start_date b <= today)%Z /\
  match end_date b with
  | Some d => (today <= d)%Z
  | None => True
  end.

#[global] Instance active_dec today b : Decision (active today b).
Proof. unfold active. destruct (end_date b); apply _. Defined.

(** The category as the table shows it. *)
Definition label (b : Budget) : string :=
  if decide (budget_category b = "overall") then "Overall" else budget_category b.

(** [round(actual / budget * 100, 1)], and 0 for a budget of 0. *)
Definition percentage_of (actual budget : Q) : float64 :=
  if decide (budget == 0)%Q then Finite 0
  else Finite (Qred (rint (actual / budget * 100 * 10) # 10)).

(** The row the specification describes for an active budget. *)
Definition expected_row (today : Z) (expenses : list Expense) (b : Budget)
  : ComparisonRow :=
  let actual := spent today expenses b in
  mkRow (label b) (budget_amount b) actual (actual - budget_amount b)
        (percentage_of actual (budget_amount b)).

(** The table the specification describes: one row for each active
    budget. *)
Definition expected_table (today : Z) (expenses : list Expense) (budgets : list Budget)
  : list ComparisonRow :=
  expected_row today expenses <$> filter (active today) budgets.

(** *** Filters *)

(** [needle] occurs in [hay] as a run of consecutive characters. *)
Definition occurs_in (needle hay : list ascii) : Prop :=
  exists before after, hay = before ++ needle ++ after.

(** [needle] is a substring of [hay]. *)
Definition is_substring (needle hay : string) : Prop :=
  occurs_in (chars needle) (chars hay).

(** [needle] is a substring of [hay] when letter case is ignored. *)
Definition contains_ignoring_case (needle hay : string) : Prop :=
  occurs_in (lower <$> chars needle) (lower <$> chars hay).

(** The predicate one filter stands for, given how the category filter,
    the tags filter and the payment-method filter compare their text with
    a cell; a range that is [None] and a key that is not supported stand
    for no predicate. *)
Definition satisfies_with (category_rule tags_rule payment_rule : string -> string -> Prop)
  (e : Expense) (f : filter_item) : Prop :=
  match filter_key_of (filter_name f) as k return filter_arg k -> Prop with
  | Some fk_date_range => fun value =>
      match value with
      | Some (start, end_) => (start <= date e <= end_)%Z
      | None => True
      end
  | Some fk_amount_range => fun value =>
      match value with
      | Some (min_amt, max_amt) => (min_amt <= amount e)%Q /\ (amount e <= max_amt)%Q
      | None => True
      end
  | Some fk_category => fun value => category_rule value (category e)
  | Some fk_payment_method => fun value => payment_rule value (payment_method e)
  | Some fk_tags => fun value => tags_rule value (tags e)
  | None => fun _ => True
  end (filter_value f).

(** The predicates of the specification: category and tags contain the
    filter string as a case-insensitive substring, the payment method is
    the one asked for. *)
Definition satisfies : Expense -> filter_item -> Prop :=
  satisfies_with contains_ignoring_case contains_ignoring_case
                 (fun value cell => cell = value).

(** The predicates of the browser version: those of the specification,
    but a payment method asked for as the empty string stands for no
    predicate. *)
Definition satisfies_browser : Expense -> filter_item -> Prop :=
  satisfies_with contains_ignoring_case contains_ignoring_case
                 (fun value cell => value = "" \/ cell = value).

(** The predicates of the terminal version: the category equals the filter
    string, the tags contain it as a substring with its letter case, the
    payment method is the one asked for. *)
Definition satisfies_terminal : Expense -> filter_item -> Prop :=
  satisfies_with (fun value cell => cell = value) is_substring
                 (fun value cell => cell = value).







(** *** Stores *)

(** A call of edit or delete at [index], on a store of [n] records in the
    state [self], that checks the bounds: it raises [IndexError] exactly
    when the index is outside [0, n), it then leaves the state as it was,
    and otherwise it returns. *)
Definition bounds_checked {A S : Type} (n index : Z) (self : S) (call : outcome A * S)
  : Prop :=
  (call.1 = Raises IndexError <-> ~ (0 <= index < n)%Z)
  /\ (call.1 = Raises IndexError -> call.2 = self)
  /\ ((0 <= index < n)%Z -> exists a, call.1 = Returns a).

(** [after] is [before] without its record [i], the later records moved
    down by one. *)
Definition compacted {A : Type} (i : nat) (before after : list A) : Prop :=
  length after = (length before - 1)%nat
  /\ (forall j, (j < i)%nat -> after !! j = before !! j)
  /\ (forall j, (i <= j)%nat -> after !! j = before !! S j).

(** The keyword argument that names the column [c]. *)
Definition assign (c : column) : cell (Some c) -> kwarg :=
  match c with
  | col_amount => fun v => mkKwarg "amount" v
  | col_date => fun v => mkKwarg "date" v
  | col_category => fun v => mkKwarg "category" v
  | col_description => fun v => mkKwarg "description" v
  | col_payment_method => fun v => mkKwarg "payment_method" v
  | col_tags => fun v => mkKwarg "tags" v
  end.

(** The keyword argument names a column of the table. *)
Definition names_column (kw : kwarg) : Prop := is_Some (column_of (key kw)).

#[global] Instance names_column_dec kw : Decision (names_column kw).
Proof. unfold names_column. apply _. Defined.

(** The effect of one keyword argument on the record that is edited. *)
Definition apply_kwarg (e : Expense) (kw : kwarg) : Expense :=
  match column_of (key kw) as c return cell c -> Expense with
  | Some c => fun value => set_cell c value e
  | None => fun _ => e
  end (value kw).

(** The row [r] of the table belongs to the active budget [b]: it shows
    the budget's label and amount, the difference and the percentage of
    its own actual, and, unless [b] is the budget "overall", the spent
    amount of [b] as its actual. *)
Definition row_of_budget (today : Z) (expenses : list Expense) (b : Budget)
  (r : ComparisonRow) : Prop :=
  row_category r = label b
  /\ row_budget r = budget_amount b
  /\ row_difference r = (row_actual r - row_budget r)%Q
  /\ (budget_category b <> "overall" -> row_actual r = spent today expenses b)
  /\ (~ (budget_amount b == 0)%Q ->
      row_percentage r = percentage_of (row_actual r) (row_budget r)).

(** The table as a function of the active budgets. *)
Definition table_of (today : Z) (expenses : list Expense) (actives : list Budget)
  : list ComparisonRow :=
  map table_row
      (merge_left (map (fun b => (budget_category b, budget_amount b)) actives)
                  (map (fun b => (label b, spent today expenses b)) actives)).

(** *** Letter case *)


(** ** More vocabulary: budgets as rows *)

(** [row[c]] of a budget. *)
Definition get_budget_cell (c : budget_column) : Budget -> budget_cell (Some c) :=
  match c with
  | bcol_category => budget_category
  | bcol_amount => budget_amount
  | bcol_period => period
  | bcol_start_date => start_date
  | bcol_end_date => end_date
  end.

(** The keyword argument of [edit_budget] that names the column [c]. *)
Definition budget_assign (c : budget_column) : budget_cell (Some c) -> budget_kwarg :=
  match c with
  | bcol_category => fun v => mkBudgetKwarg "category" v
  | bcol_amount => fun v => mkBudgetKwarg "amount" v
  | bcol_period => fun v => mkBudgetKwarg "period" v
  | bcol_start_date => fun v => mkBudgetKwarg "start_date" v
  | bcol_end_date => fun v => mkBudgetKwarg "end_date" v
  end.

Definition names_budget_column (kw : budget_kwarg) : Prop :=
  is_Some (budget_column_of (budget_key kw)).

#[global] Instance names_budget_column_dec kw : Decision (names_budget_column kw).
Proof. unfold names_budget_column. apply _. Defined.

(** The effect of one keyword argument on the budget that is edited. *)
Definition apply_budget_kwarg (b : Budget) (kw : budget_kwarg) : Budget :=
  match budget_column_of (budget_key kw) as c return budget_cell c -> Budget with
  | Some c => fun value => set_budget_cell c value b
  | None => fun _ => b
  end (budget_value kw).

(** The budget that [add_budget] and [set_budget] store: a blank category
    stands for "overall", a missing start date for today. *)
Definition new_budget (today : Z) (category : string) (amount : Q) (period : string)
  (start_date end_date : option Z) : Budget :=
  mkBudget (if decide (category = "") then "overall" else category) amount period
           (default today start_date) end_date.

(** ** The reports: [class ReportGenerator] of both files *)

From Stdlib Require Import Qminmax OrderedTypeEx.

(** *** Statistics of a column of amounts

    The statistics are pandas' [mean], [median], [min], [max] and [std] of a
    column that holds at least the value [x]; [generate_summary] calls them
    on a non-empty table only. *)

(** [Series.mean()] *)
Definition mean (x : Q) (rest : list Q) : Q :=
  (sum (x :: rest) / inject_Z (len (x :: rest)))%Q.

(** [Series.min()] and [Series.max()] *)
Definition minimum (x : Q) (rest : list Q) : Q := foldl Qmin x rest.
Definition maximum (x : Q) (rest : list Q) : Q := foldl Qmax x rest.

(** The values of a column in ascending order. *)
Fixpoint insert_value (x : Q) (l : list Q) : list Q :=
  match l with
  | [] => [x]
  | y :: rest => if Qle_bool x y then x :: y :: rest else y :: insert_value x rest
  end.

Definition sorted_values (xs : list Q) : list Q := foldr insert_value [] xs.

(** [Series.median()]: the middle value in ascending order, the mean of the
    two middle values when their number is even. *)
Definition median (x : Q) (rest : list Q) : Q :=
  let values := sorted_values (x :: rest) in
  let n := length (x :: rest) in
  if Nat.even n
  then ((nth (n / 2 - 1) values 0 + nth (n / 2) values 0) / 2)%Q
  else nth (n / 2) values 0%Q.

(** A standard deviation: NaN, or the square root of a variance.  The
    square root of a rational is kept as the rational it is the root of. *)
Inductive deviation : Type :=
| NoDeviation
| SquareRootOf (variance : Q).

(** [Series.std()], with pandas' default of one delta degree of freedom:
    NaN for a single value, else the root of the sum of the squared
    distances from the mean over n - 1. *)
Definition std (x : Q) (rest : list Q) : deviation :=
  match rest with
  | [] => NoDeviation
  | _ :: _ =>
      let m := mean x rest in
      SquareRootOf
        (sum ((fun v => (v - m) * (v - m)) <$> (x :: rest))
         / inject_Z (len (x :: rest) - 1))%Q
  end.

(** The dict that [generate_summary] returns. *)
Record Summary : Type := mkSummary {
  Total : Q;
  Average : Q;
  Median : Q;
  Min : Q;
  Max : Q;
  Std_Dev : deviation
}.

(** The body of [generate_summary] after the view: nothing for an empty
    view ([None] in the browser version, the text "No expenses found." in
    the terminal version), else the six statistics of the amounts. *)
Definition summarise (df : list Expense) : option Summary :=
  match amount <$> df with
  | [] => None
  | x :: rest =>
      Some (mkSummary (sum (x :: rest)) (mean x rest) (median x rest)
                      (minimum x rest) (maximum x rest) (std x rest))
  end.

(** *** Tables without rows

    The columns of a table have no type here.  In pandas the columns of a
    table that was created empty have the dtype object, those of a table
    whose rows were all deleted keep the dtype of the rows; [Series.dt],
    [nlargest] and the aggregation of a group tell the two apart.  The
    reports that use them are modelled on a table with rows, and are
    [Unmodelled] on a table without. *)
Definition with_rows {A : Type} (df : list Expense) (report : outcome A) : outcome A :=
  if empty df then Unmodelled else report.

(** *** [DataFrame.groupby(key)]

    The groups of a table by a key column, in ascending order of the key
    (pandas' default [sort=True]), each key once. *)
Section GroupBy.

Context {K : Type} (leb eqb : K -> K -> bool) (key : Expense -> K).

Fixpoint insert_key (k : K) (keys : list K) : list K :=
  match keys with
  | [] => [k]
  | y :: rest =>
      if eqb k y then y :: rest
      else if leb k y then k :: y :: rest
      else y :: insert_key k rest
  end.

Definition group_keys (df : list Expense) : list K :=
  foldr (fun e keys => insert_key (key e) keys) [] df.

Definition groupby (df : list Expense) : list (K * list Expense) :=
  map (fun k => (k, List.filter (fun e => eqb (key e) k) df)) (group_keys df).

End GroupBy.

(** One row of [category_summary]: the category, and sum, mean and count of
    its amounts with the percentage of the total. *)
Record CategoryRow : Type := mkCategoryRow {
  cs_category : string;
  cs_sum : Q;
  cs_mean : Q;
  cs_count : Z;
  cs_percentage : float64
}.

(** [groupby('category')['amount'].agg(['sum', 'mean', 'count'])] *)
Definition aggregate (df : list Expense) : list (string * Q * Q * Z) :=
  map (fun g : string * list Expense =>
         let amounts := amount <$> g.2 in
         (g.1, sum amounts, (sum amounts / inject_Z (len amounts))%Q, len amounts))
      (groupby String.leb String.eqb category df).

(** [DataFrame.nlargest(n, 'amount')] with the default [keep='first'].
    For an [n] that is not positive pandas returns no row.  For an [n]
    below the number of rows it returns the first [n] rows in descending
    order of the amount, rows of equal amount in the order of the table.
    For a larger [n] it returns [sort_values(ascending=False).head(n)],
    where a descending sort is the reverse of the ascending sort of the
    reversed table. *)
Fixpoint insert_descending (x : Expense) (l : list Expense) : list Expense :=
  match l with
  | [] => [x]
  | y :: rest =>
      if Qle_bool (amount y) (amount x) then x :: y :: rest
      else y :: insert_descending x rest
  end.

Definition nlargest `{Pandas} (n : Z) (df : list Expense) : outcome (list Expense) :=
  with_rows df
    (if (n <=? 0)%Z then Returns []
     else if (len df <=? n)%Z
          then Returns (take (Z.to_nat n) (reverse (sort_values col_amount (reverse df))))
          else Returns (take (Z.to_nat n) (foldr insert_descending [] df))).

(** One row of [trends]: a period and the amount spent in it.  A period is
    given by its ordinal, the number pandas orders periods by. *)
Definition TrendRow : Type := Z * Q.

(** The body shared by the two [trends]: the column period is added for
    the frequencies 'M', 'Q' and 'Y', with [Series.dt] on a table with
    rows; for another [period] it is not, and [groupby('period')] raises
    [KeyError].  [to_period] stands for pandas' [Series.dt.to_period]: the
    ordinal of the period of a frequency that a timestamp lies in. *)
Definition trends_of (to_period : string -> Z -> Z) (period : string)
  (df : list Expense) : outcome (list TrendRow) :=
  let by_period freq :=
    map (fun g : Z * list Expense => (g.1, sum (amount <$> g.2)))
        (groupby Z.leb Z.eqb (fun e => to_period freq (date e)) df) in
  if String.eqb period "monthly" then with_rows df (Returns (by_period "M"))
  else if String.eqb period "quarterly" then with_rows df (Returns (by_period "Q"))
  else if String.eqb period "yearly" then with_rows df (Returns (by_period "Y"))
  else Raises KeyError.

Module TerminalReports.

(** [ReportGenerator.generate_summary]; the result [None] is the text
    "No expenses found.". *)
Definition generate_summary `{Pandas} (date_range : option (Z * Z))
  (manager : Terminal.ExpenseManager) : outcome (option Summary) :=
  df ← Terminal.view_expenses
         (match date_range with
          | Some range => [mkFilter "date_range" (Some range)]
          | None => []
          end) None manager;
  Returns (summarise df).

(** [ReportGenerator.category_summary] *)
Definition category_summary (manager : Terminal.ExpenseManager)
  : outcome (list CategoryRow) :=
  with_rows (Terminal.df manager)
    (let grouped := aggregate (Terminal.df manager) in
     let total := sum (amount <$> Terminal.df manager) in
     Returns (map (fun g => let '(name, s, m, n) := g in
                            mkCategoryRow name s m n (times100 (truediv s total)))
                  grouped)).

(** [ReportGenerator.trends] *)
Definition trends (to_period : string -> Z -> Z) (period : string)
  (manager : Terminal.ExpenseManager) : outcome (list TrendRow) :=
  trends_of to_period period (Terminal.df manager).

(** [ReportGenerator.top_n_expenses] *)
Definition top_n_expenses `{Pandas} (n : Z) (manager : Terminal.ExpenseManager)
  : outcome (list Expense) :=
  nlargest n (Terminal.df manager).

(** [ReportGenerator.custom_range_report] *)
Definition custom_range_report `{Pandas} (start end_ : Z)
  (manager : Terminal.ExpenseManager) : outcome (option Summary) :=
  generate_summary (Some (start, end_)) manager.

End TerminalReports.

Module StreamlitReports.

(** [ReportGenerator.generate_summary] *)
Definition generate_summary `{Pandas} (date_range : option (Z * Z))
  (manager : Streamlit.ExpenseManager) : outcome (option Summary) :=
  df ← Streamlit.view_expenses [mkFilter "date_range" date_range] None manager;
  Returns (summarise df).

(** [ReportGenerator.category_summary] *)
Definition category_summary (manager : Streamlit.ExpenseManager)
  : outcome (list CategoryRow) :=
  with_rows (Streamlit.expenses_df manager)
    (let grouped := aggregate (Streamlit.expenses_df manager) in
     let total := sum (amount <$> Streamlit.expenses_df manager) in
     Returns (map (fun g => let '(name, s, m, n) := g in
                            mkCategoryRow name s m n
                              (if Qgtb total 0 then times100 (truediv s total)
                               else Finite 0))
                  grouped)).

(** [ReportGenerator.trends]; the periods are returned as text, which is
    left out. *)
Definition trends (to_period : string -> Z -> Z) (period : string)
  (manager : Streamlit.ExpenseManager) : outcome (list TrendRow) :=
  trends_of to_period period (Streamlit.expenses_df manager).

(** [ReportGenerator.top_n_expenses] *)
Definition top_n_expenses `{Pandas} (n : Z) (manager : Streamlit.ExpenseManager)
  : outcome (list Expense) :=
  nlargest n (Streamlit.expenses_df manager).

(** [ReportGenerator.custom_range_report] *)
Definition custom_range_report `{Pandas} (start end_ : Z)
  (manager : Streamlit.ExpenseManager) : outcome (option Summary) :=
  generate_summary (Some (start, end_)) manager.

End StreamlitReports.

(** An expense dated within a range, both ends included; every expense when
    no range is given. *)
Definition dated_within (date_range : option (Z * Z)) (e : Expense) : Prop :=
  match date_range with
  | Some (start, end_) => (start <= date e <= end_)%Z
  | None => True
  end.

#[global] Instance dated_within_dec date_range e : Decision (dated_within date_range e).
Proof. destruct date_range as [[]|]; apply _. Defined.

(** Strictly before in an order: before and not equal. *)
Definition strictly {K : Type} (leb : K -> K -> bool) (a b : K) : Prop :=
  leb a b = true /\ a <> b.

(** The order of [nlargest]: a row comes before the rows of no larger
    amount. *)
Definition descending (a b : Expense) : Prop := (amount b <= amount a)%Q.

(** The frequency that [trends] groups by for a period it knows. *)
Definition frequency_of (period : string) : option string :=
  if decide (period = "monthly") then Some "M"
  else if decide (period = "quarterly") then Some "Q"
  else if decide (period = "yearly") then Some "Y"
  else None.

(** ** The categories offered by the pages of the browser version *)

(** [Series.unique().tolist()]: the values in the order of their first
    appearance. *)
Fixpoint unique (l : list string) : list string :=
  match l with
  | [] => []
  | x :: rest => x :: List.filter (fun y => negb (String.eqb y x)) (unique rest)
  end.

(** [list.remove(x)] on a list that holds [x]: the list without the first
    [x]. *)
Fixpoint remove (x : string) (l : list string) : list string :=
  match l with
  | [] => []
  | y :: rest => if String.eqb y x then rest else y :: remove x rest
  end.

(** [sorted(set(l))]: the values of [l], each once, in ascending order. *)
Definition sorted_set (l : list string) : list string :=
  foldr (insert_key String.leb String.eqb) [] l.

Definition default_categories : list string := ["Food"; "Transport"; "Jewelry Supplies"].

(** [get_categories]; the two tables are those of the session. *)
Definition get_categories (budgets_df : list Budget) (expenses_df : list Expense)
  : list string :=
  let cats := unique (budget_category <$> budgets_df) in
  let cats := if existsb (String.eqb "overall") cats then remove "overall" cats
              else cats in
  let cats := if empty cats then unique (category <$> expenses_df) else cats in
  if empty (sorted_set cats) then default_categories else sorted_set cats.

(** ** The menu of the terminal version *)

(** What reading from the console gives: a value with the lines left on
    standard input, or an exception that nothing in [main] catches:
    [EOFError] of [input] at the end of standard input, [ValueError] of a
    conversion outside [validate_input].  [NotModelled] is an amount typed
    as inf or nan, which the expense table of this model cannot hold. *)
Inductive entered (A : Type) : Type :=
| Entered (value : A) (rest : list string)
| EOFError
| ValueError
| NotModelled.

Arguments Entered {A} value rest.
Arguments EOFError {A}.
Arguments ValueError {A}.
Arguments NotModelled {A}.

(** A computation that reads standard input. *)
Definition console (A : Type) : Type := list string -> entered A.

#[global] Instance console_ret : MRet console := fun _ a stdin => Entered a stdin.

#[global] Instance console_bind : MBind console := fun _ _ k m stdin =>
  match m stdin with
  | Entered a rest => k a rest
  | EOFError => EOFError
  | ValueError => ValueError
  | NotModelled => NotModelled
  end.

(** [input(prompt)] *)
Definition input : console string := fun stdin =>
  match stdin with
  | [] => EOFError
  | line :: rest => Entered line rest
  end.

(** A conversion that raises [ValueError] where [type_func] gives nothing. *)
Definition convert {A : Type} (type_func : string -> option A) (s : string) : console A :=
  fun stdin => match type_func s with
               | Some a => Entered a stdin
               | None => ValueError
               end.

(** [validate_input]: the loop reads a line, and returns its value unless
    the conversion raises [ValueError] or a validator is given and rejects
    the value; it then prints "Invalid input. Try again." and reads the
    next line.  [type_func] gives nothing where the conversion raises
    [ValueError]; a validator that raises [ValueError] is one that answers
    [false]. *)
Fixpoint validate_input {A : Type} (type_func : string -> option A)
  (validator : option (A -> bool)) (stdin : list string) : entered A :=
  match stdin with
  | [] => EOFError
  | line :: rest =>
      match type_func line with
      | Some value =>
          if match validator with
             | Some check => negb (check value)
             | None => false
             end
          then validate_input type_func validator rest
          else Entered value rest
      | None => validate_input type_func validator rest
      end
  end.

(** The value that [validate_input] takes from a line, if any. *)
Definition accepted {A : Type} (type_func : string -> option A)
  (validator : option (A -> bool)) (line : string) : option A :=
  match type_func line with
  | Some value =>
      if match validator with
         | Some check => check value
         | None => true
         end
      then Some value else None
  | None => None
  end.

(** [x > 0] on a float. *)
Definition positive (x : float64) : bool :=
  match x with
  | Finite q => Qgtb q 0
  | PosInf => true
  | NegInf | NaN => false
  end.

(** A float as an amount of the expense table. *)
Definition as_amount (x : float64) : console Q := fun stdin =>
  match x with
  | Finite q => Entered q stdin
  | _ => NotModelled
  end.

Section Menu.

(** The conversions of Python that the menu calls on a line of input:
    [int], [float] and [datetime.strptime(_, '%Y-%m-%d')]; each gives
    nothing where Python raises [ValueError]. *)
Context (int : string -> option Z) (float_of_str : string -> option float64)
  (strptime : string -> option Z).

(** Choice 1 of [main]: add an expense. *)
Definition choice_1 (now : Z) (manager : Terminal.ExpenseManager)
  : console (outcome (list Terminal.Alert) * Terminal.ExpenseManager) :=
  amount ← validate_input float_of_str (Some positive);
  amount ← as_amount amount;
  date_str ← validate_input Some (Some (fun x => bool_decide (is_Some (strptime x))));
  date ← convert strptime date_str;
  category ← input;
  description ← input;
  payment_method ← input;
  tags ← input;
  mret (Terminal.add_expense now
          (mkExpense amount date category description payment_method tags) manager).

(** One turn of the loop over the fields in choice 2: nothing for a blank
    line, else the keyword argument of the field. *)
Definition read_field (field : column) : console (list kwarg) :=
  val ← input;
  if String.eqb val "" then mret []
  else match field with
       | col_date => d ← convert strptime val; mret [assign col_date d]
       | col_amount =>
           x ← convert float_of_str val; q ← as_amount x; mret [assign col_amount q]
       | col_category => mret [assign col_category val]
       | col_description => mret [assign col_description val]
       | col_payment_method => mret [assign col_payment_method val]
       | col_tags => mret [assign col_tags val]
       end.

Fixpoint read_fields (fields : list column) : console (list kwarg) :=
  match fields with
  | [] => mret []
  | field :: rest =>
      kw ← read_field field;
      kwargs ← read_fields rest;
      mret (kw ++ kwargs)
  end.

(** Choice 2 of [main]: edit an expense. *)
Definition choice_2 (now : Z) (manager : Terminal.ExpenseManager)
  : console (outcome (list Terminal.Alert) * Terminal.ExpenseManager) :=
  index ← validate_input int
            (Some (fun x => (0 <=? x)%Z && (x <? len (Terminal.df manager))%Z));
  kwargs ← read_fields [col_amount; col_date; col_category; col_description;
                        col_payment_method; col_tags];
  mret (Terminal.edit_expense now index kwargs manager).

(** Choice 3 of [main]: delete an expense. *)
Definition choice_3 (now : Z) (manager : Terminal.ExpenseManager)
  : console (outcome (list Terminal.Alert) * Terminal.ExpenseManager) :=
  index ← validate_input int
            (Some (fun x => (0 <=? x)%Z && (x <? len (Terminal.df manager))%Z));
  mret (Terminal.delete_expense now index manager).

(** Choice 8 of [main]: the trends of the period typed. *)
Definition choice_8 (to_period : string -> Z -> Z) (manager : Terminal.ExpenseManager)
  : console (outcome (list TrendRow)) :=
  period ← input;
  mret (TerminalReports.trends to_period period manager).

(** Choice 9 of [main]: the top N expenses for the N typed. *)
Definition choice_9 `{Pandas} (manager : Terminal.ExpenseManager)
  : console (outcome (list Expense)) :=
  line ← input;
  n ← convert int line;
  mret (TerminalReports.top_n_expenses n manager).

End Menu.
(** ** Auxiliary lemmas *)

(** A boolean mask selects what the proposition it decides selects. *)
Lemma filter_mask {A : Type} (mask : A -> bool) (P : A -> Prop)
  `{!forall x, Decision (P x)} (l : list A) :
  (forall x, mask x = true <-> P x) -> List.filter mask l = filter P l.
Proof.
  intros Hmask. induction l as [|x l IH]; [done|].
  cbn [List.filter]. rewrite filter_cons.
  destruct (mask x) eqn:Hx, (decide (P x)) as [HP|HP]; rewrite ?IH; try done.
  - exfalso. apply HP, Hmask, Hx.
  - apply Hmask in HP. congruence.
Qed.

(** A loop that appends to a list under a test collects the image of the
    items that pass. *)
Lemma foldl_collect {A B : Type} (test : A -> bool) (P : A -> Prop)
  `{!forall x, Decision (P x)} (g : A -> B) (l : list A) (acc : list B) :
  (forall x, test x = true <-> P x) ->
  foldl (fun acc x => if test x then acc ++ [g x] else acc) acc l
  = acc ++ (g <$> filter P l).
Proof.
  intros Htest. revert acc.
  induction l as [|x l IH]; intros acc; cbn [foldl].
  - by rewrite filter_nil, app_nil_r.
  - rewrite IH, filter_cons.
    destruct (test x) eqn:Hx, (decide (P x)) as [HP|HP]; try done.
    + by rewrite fmap_cons, <- app_assoc.
    + exfalso. apply HP, Htest, Hx.
    + apply Htest in HP. congruence.
Qed.

Lemma Qgtb_lt (a b : Q) : Qgtb a b = true <-> (b < a)%Q.
Proof.
  unfold Qgtb. rewrite negb_true_iff, <- not_true_iff_false, Qle_bool_iff.
  split; [apply Qnot_le_lt | apply Qlt_not_le].
Qed.

Lemma window_mask (today : Z) (b : Budget) (e : Expense) :
  (start_date b <=? date e)%Z && (date e <=? default today (end_date b))%Z = true
  <-> in_window today b e.
Proof. unfold in_window. rewrite andb_true_iff, !Z.leb_le. tauto. Qed.

(** The amount the browser version computes for a budget is the spent
    amount of the specification. *)
Lemma spent_of_spent (today : Z) (expenses : list Expense) (b : Budget) :
  Streamlit.spent_of today expenses b = spent today expenses b.
Proof.
  unfold Streamlit.spent_of, spent.
  change (match end_date b with Some d => d | None => today end)
    with (default today (end_date b)).
  destruct (String.eqb_spec (budget_category b) "overall") as [Hcat|Hcat];
    f_equal; f_equal; apply filter_mask; intros e;
    unfold selected, category_matches.
  - rewrite window_mask. tauto.
  - rewrite andb_true_iff, window_mask, String.eqb_eq. tauto.
Qed.


Lemma mask_none {A : Type} (mask : A -> bool) (l : list A) :
  (forall x, x ∈ l -> mask x = false) -> List.filter mask l = [].
Proof.
  induction l as [|x l IH]; intros Hmask; [done|].
  cbn [List.filter]. rewrite Hmask by left. apply IH. intros y Hy. apply Hmask. by right.
Qed.

(** The amount the terminal version computes for a dict is the spent amount
    of the budget the dict stands for, but 0 for a dict read without end
    date. *)
Lemma spent_of_terminal (now : Z) (expenses : list Expense) (d : Terminal.BudgetDict) :
  Terminal.spent_of now expenses d = spent_terminal now expenses d.
Proof.
  unfold Terminal.spent_of, spent_terminal, read_without_end.
  destruct d as [cat amt per start [[t|]|]]; cbn [Terminal.dict_end_date
    Terminal.dict_category Terminal.dict_start_date].
  - rewrite decide_False by done.
    change (spent now expenses (budget_of (Terminal.mkDict cat amt per start
                                             (Some (Timestamp t)))))
      with (spent now expenses (mkBudget cat amt per start (Some t))).
    rewrite <- spent_of_spent. reflexivity.
  - rewrite decide_True by done.
    rewrite !mask_none; [by destruct (String.eqb cat "overall")|..];
      intros e _; cbn [le_datetime]; by rewrite andb_false_r.
  - rewrite decide_False by done.
    change (spent now expenses (budget_of (Terminal.mkDict cat amt per start None)))
      with (spent now expenses (mkBudget cat amt per start None)).
    rewrite <- spent_of_spent. reflexivity.
Qed.

(** The alerts of the browser version: those of the overspent budgets. *)
Lemma browser_alerts_collect (today : Z) (expenses : list Expense) (bs : list Budget) :
  Streamlit.get_alerts today (Streamlit.mkManager expenses bs)
  = (fun b => (budget_category b, budget_amount b, spent today expenses b))
      <$> filter (overspent today expenses) bs.
Proof.
  unfold Streamlit.get_alerts. cbn [Streamlit.budgets_df Streamlit.expenses_df].
  etrans.
  - apply (foldl_collect
             (fun b => Qgtb (Streamlit.spent_of today expenses b) (budget_amount b))
             (overspent today expenses)
             (fun b => (budget_category b, budget_amount b,
                        Streamlit.spent_of today expenses b))).
    intros b. by rewrite Qgtb_lt, spent_of_spent.
  - cbn [app]. apply list_fmap_ext. intros _ b _. by rewrite spent_of_spent.
Qed.

(** The alerts of the terminal version: those of the dicts under which the
    amount it takes as spent exceeds the budget. *)
Lemma terminal_alerts_collect (now : Z) (expenses : list Expense)
  (dicts : list Terminal.BudgetDict) :
  Terminal._check_budget_alerts now (Terminal.mkManager expenses dicts)
  = (fun d => (Terminal.dict_category d, Terminal.dict_period d, Terminal.dict_amount d,
               spent_terminal now expenses d))
      <$> filter (fun d => (Terminal.dict_amount d < spent_terminal now expenses d)%Q) dicts.
Proof.
  unfold Terminal._check_budget_alerts. cbn [Terminal.budgets Terminal.df].
  etrans.
  - apply (foldl_collect
             (fun d => Qgtb (Terminal.spent_of now expenses d) (Terminal.dict_amount d))
             (fun d => (Terminal.dict_amount d < spent_terminal now expenses d)%Q)
             (fun d => (Terminal.dict_category d, Terminal.dict_period d,
                        Terminal.dict_amount d, Terminal.spent_of now expenses d))).
    intros d. by rewrite Qgtb_lt, spent_of_terminal.
  - cbn [app]. apply list_fmap_ext. intros _ d _. by rewrite spent_of_terminal.
Qed.

(** In memory, and read from the file with an end date, a dict is
    evaluated as the budget it stands for. *)
Lemma spent_terminal_spent (now : Z) (expenses : list Expense) (d : Terminal.BudgetDict) :
  ~ read_without_end d -> spent_terminal now expenses d = spent now expenses (budget_of d).
Proof. intros Hd. unfold spent_terminal. by rewrite decide_False. Qed.

Lemma budget_of_in_memory (b : Budget) : budget_of (in_memory b) = b.
Proof. by destruct b as [? ? ? ? [?|]]. Qed.

Lemma in_memory_has_end (b : Budget) : ~ read_without_end (in_memory b).
Proof. unfold read_without_end. by destruct b as [? ? ? ? [?|]]. Qed.
(** ** Overspend alerts *)

(** C1, what the code does.  For every expense store, budget store and
    evaluation instant the browser version reports an alert for exactly the
    budgets whose spent amount strictly exceeds the budget amount, in
    store order, each with the category, the budget amount and the spent
    amount; the spent amount is the sum over the expenses dated within
    [start_date, end_date if present else today] whose category equals the
    budget's, or over all of those for the budget "overall".  The terminal
    version (which also prints the period) does the same for a dict that
    holds [None] or a timestamp as its end date.  For a dict read from the
    file without end date, which holds [NaT], it takes 0 as spent whatever
    the expenses are: such a budget, of an amount that is not negative,
    raises no alert.  A budget that is spent exactly raises no alert, and
    an empty selection gives a spent amount of 0. *)
Theorem alerts_exactly_overspent (today : Z) (expenses : list Expense)
  (budgets : list Budget) (dicts : list Terminal.BudgetDict) :
  Streamlit.get_alerts today (Streamlit.mkManager expenses budgets)
    = (fun b => (budget_category b, budget_amount b, spent today expenses b))
        <$> filter (overspent today expenses) budgets
  /\ Terminal._check_budget_alerts today (Terminal.mkManager expenses dicts)
     = (fun d => (Terminal.dict_category d, Terminal.dict_period d,
                  Terminal.dict_amount d, spent_terminal today expenses d))
         <$> filter (fun d => (Terminal.dict_amount d < spent_terminal today expenses d)%Q)
                    dicts
  /\ (Forall (fun d => ~ read_without_end d) dicts ->
      Terminal._check_budget_alerts today (Terminal.mkManager expenses dicts)
      = (fun b => (budget_category b, period b, budget_amount b, spent today expenses b))
          <$> filter (overspent today expenses) (budget_of <$> dicts))
  /\ (forall d, read_without_end d -> (0 <= Terminal.dict_amount d)%Q ->
        Terminal._check_budget_alerts today (Terminal.mkManager expenses [d]) = [])
  /\ (forall b, (spent today expenses b == budget_amount b)%Q ->
        Streamlit.get_alerts today (Streamlit.mkManager expenses [b]) = []
        /\ Terminal._check_budget_alerts today (Terminal.mkManager expenses [in_memory b])
           = [])
  /\ (forall b, filter (selected today b) expenses = [] ->
        Streamlit.spent_of today expenses b = 0%Q
        /\ Terminal.spent_of today expenses (in_memory b) = 0%Q).
Proof.
  split; [apply browser_alerts_collect|]. split; [apply terminal_alerts_collect|].
  split; [|split; [|split]].
  - intros Hdicts. rewrite terminal_alerts_collect.
    induction Hdicts as [|d dicts Hd _ IH]; [done|].
    rewrite fmap_cons, !filter_cons, spent_terminal_spent by done.
    change (Terminal.dict_amount d < spent today expenses (budget_of d))%Q
      with (overspent today expenses (budget_of d)).
    destruct (decide (overspent today expenses (budget_of d))); [|exact IH].
    rewrite !fmap_cons, IH, spent_terminal_spent by done. done.
  - intros d Hd Hamount. rewrite terminal_alerts_collect, filter_cons_False; [done|].
    unfold spent_terminal. rewrite decide_True by done. by apply Qle_not_lt.
  - intros b Heq. rewrite browser_alerts_collect, terminal_alerts_collect.
    rewrite !filter_cons_False; [done|..].
    + rewrite spent_terminal_spent, budget_of_in_memory by apply in_memory_has_end.
      destruct b; cbn. rewrite Heq. apply Qlt_irrefl.
    + unfold overspent. rewrite Heq. apply Qlt_irrefl.
  - intros b Hnone. rewrite spent_of_spent, spent_of_terminal.
    rewrite spent_terminal_spent, budget_of_in_memory by apply in_memory_has_end.
    unfold spent. by rewrite Hnone.
Qed.

(** C1 fails on a store of the terminal version that was read from the
    file: the budget "Beads" of 400 from day 1 on, set without end date and
    read back, is overspent by an expense of 500 on day 5, and no alert is
    printed on day 20; before the restart the alert is printed. *)
Lemma alerts_exactly_overspent_witness :
  overspent 20 [mkExpense 500 5 "Beads" "" "" ""]
    (budget_of (Terminal.mkDict "Beads" 400 "monthly" 1 (Some NaT)))
  /\ Terminal._check_budget_alerts 20
       (Terminal.mkManager [mkExpense 500 5 "Beads" "" "" ""]
                           [Terminal.mkDict "Beads" 400 "monthly" 1 (Some NaT)])
     = []
  /\ Terminal._check_budget_alerts 20
       (Terminal.mkManager [mkExpense 500 5 "Beads" "" "" ""]
                           [Terminal.mkDict "Beads" 400 "monthly" 1 None])
     = [("Beads", "monthly", 400%Q, (0 + 500)%Q)].
Proof.
  split; [by vm_compute|]. split; [|reflexivity].
  apply (alerts_exactly_overspent 20 [mkExpense 500 5 "Beads" "" "" ""] [] []);
    [reflexivity | discriminate].
Defined.

(** ** The stores: edit and delete by index *)

Lemma bounds_guard (n index : Z) :
  (index <? 0)%Z || (n <=? index)%Z = true <-> ~ (0 <= index < n)%Z.
Proof. rewrite orb_true_iff, Z.ltb_lt, Z.leb_le. lia. Qed.

Lemma bounds_checked_guard {A S : Type} (n index : Z) (self self' : S) (a : A) :
  bounds_checked n index self
    (if (index <? 0)%Z || (n <=? index)%Z then (Raises IndexError, self)
     else (Returns a, self')).
Proof.
  unfold bounds_checked.
  destruct ((index <? 0)%Z || (n <=? index)%Z) eqn:Hguard; cbn [fst snd].
  - apply bounds_guard in Hguard. repeat split; try done.
  - apply not_true_iff_false in Hguard. rewrite bounds_guard in Hguard.
    repeat split; try done. intros _. by exists a.
Qed.

(** C7.  In both versions, edit and delete of an expense, and in the browser
    version edit and delete of a budget, raise [IndexError] exactly when
    the index is outside [0, n) for a store of n records; the exception
    reaches the caller with the stores as they were, and an index in range
    is never refused. *)
Theorem index_error_exactly_out_of_range (now index : Z) (kwargs : list kwarg)
  (budget_kwargs : list budget_kwarg) (terminal : Terminal.ExpenseManager)
  (browser : Streamlit.ExpenseManager) :
  bounds_checked (len (Terminal.df terminal)) index terminal
    (Terminal.edit_expense now index kwargs terminal)
  /\ bounds_checked (len (Terminal.df terminal)) index terminal
    (Terminal.delete_expense now index terminal)
  /\ bounds_checked (len (Streamlit.expenses_df browser)) index browser
    (Streamlit.edit_expense index kwargs browser)
  /\ bounds_checked (len (Streamlit.expenses_df browser)) index browser
    (Streamlit.delete_expense index browser)
  /\ bounds_checked (len (Streamlit.budgets_df browser)) index browser
    (Streamlit.edit_budget index budget_kwargs browser)
  /\ bounds_checked (len (Streamlit.budgets_df browser)) index browser
    (Streamlit.delete_budget index browser).
Proof. repeat split; apply bounds_checked_guard. Qed.

Lemma delete_compacted {A : Type} (i : nat) (l : list A) :
  (i < length l)%nat -> compacted i l (delete i l).
Proof.
  intros Hi. repeat split.
  - apply length_delete, lookup_lt_is_Some_2, Hi.
  - intros j Hj. by apply list_lookup_delete_lt.
  - intros j Hj. by apply list_lookup_delete_ge.
Qed.

Lemma in_range_guard (n index : Z) :
  (0 <= index < n)%Z -> (index <? 0)%Z || (n <=? index)%Z = false.
Proof. intros H. apply not_true_iff_false. rewrite bounds_guard. tauto. Qed.

(** C8.  Deleting at an index i in range leaves a store of n-1 records in
    which the records before position i are unchanged and every position j
    from i on holds the record that was at j+1; the other store is not
    touched.  This holds for the expenses of both versions, whatever the
    budgets are, and for the budgets of the browser version, whatever the
    expenses are. *)
Theorem delete_compacts (now i : Z) (expenses : list Expense) (budgets : list Budget)
  (dicts : list Terminal.BudgetDict) :
  ((0 <= i < len expenses)%Z ->
   (exists after,
       (Terminal.delete_expense now i (Terminal.mkManager expenses dicts)).2
       = Terminal.mkManager after dicts
       /\ compacted (Z.to_nat i) expenses after)
   /\ (exists after,
       (Streamlit.delete_expense i (Streamlit.mkManager expenses budgets)).2
       = Streamlit.mkManager after budgets
       /\ compacted (Z.to_nat i) expenses after))
  /\ ((0 <= i < len budgets)%Z ->
      exists after,
        (Streamlit.delete_budget i (Streamlit.mkManager expenses budgets)).2
        = Streamlit.mkManager expenses after
        /\ compacted (Z.to_nat i) budgets after).
Proof.
  unfold Terminal.delete_expense, Streamlit.delete_expense, Streamlit.delete_budget.
  cbn [Terminal.df Terminal.budgets Streamlit.expenses_df Streamlit.budgets_df].
  split; intros Hi; rewrite !(in_range_guard _ i Hi); cbn [snd]; unfold len in Hi.
  - split; eexists; (split; [reflexivity|]); apply delete_compacted; lia.
  - eexists. split; [reflexivity|]. apply delete_compacted. lia.
Qed.

Lemma delete_compacts_witness :
  (exists after,
     (Streamlit.delete_expense 1
        (Streamlit.mkManager
           [mkExpense 500 5 "Beads" "" "Cash" ""; mkExpense 800 10 "Wire" "" "Card" "";
            mkExpense 20 12 "Clasps" "" "Card" ""]
           [])).2
     = Streamlit.mkManager after []
     /\ compacted 1
          [mkExpense 500 5 "Beads" "" "Cash" ""; mkExpense 800 10 "Wire" "" "Card" "";
           mkExpense 20 12 "Clasps" "" "Card" ""] after)
  /\ (exists after,
       (Terminal.delete_expense 0 1
          (Terminal.mkManager
             [mkExpense 500 5 "Beads" "" "Cash" ""; mkExpense 800 10 "Wire" "" "Card" "";
              mkExpense 20 12 "Clasps" "" "Card" ""]
             [])).2
       = Terminal.mkManager after []
       /\ compacted 1
            [mkExpense 500 5 "Beads" "" "Cash" ""; mkExpense 800 10 "Wire" "" "Card" "";
             mkExpense 20 12 "Clasps" "" "Card" ""] after).
Proof.
  destruct (proj1 (delete_compacts 0 1
              [mkExpense 500 5 "Beads" "" "Cash" ""; mkExpense 800 10 "Wire" "" "Card" "";
               mkExpense 20 12 "Clasps" "" "Card" ""] [] []))
    as [Hterminal Hbrowser]; [unfold len; simpl; lia|].
  split; [exact Hbrowser | exact Hterminal].
Defined.

(** *** Edit *)

(** Case analysis on the key of the keyword argument [kw], the value kept
    in step with the type the key gives it. *)
Ltac kwarg_cases kw k v :=
  destruct kw as [k v];
  cbn [key value] in *;
  generalize dependent v;
  destruct (column_of k) as [[]|];
  intros v.

Lemma edit_step_versions (i : nat) (df : list Expense) (kw : kwarg) :
  Terminal.edit_step i df kw = Streamlit.edit_step i df kw.
Proof.
  unfold Terminal.edit_step, Streamlit.edit_step. by kwarg_cases kw k v.
Qed.

Lemma edit_step_alter (i : nat) (df : list Expense) (kw : kwarg) :
  Streamlit.edit_step i df kw = alter (fun e => apply_kwarg e kw) i df.
Proof.
  unfold Streamlit.edit_step, apply_kwarg. kwarg_cases kw k v; try done.
  symmetry. by apply list_alter_id.
Qed.

Lemma edit_loop_alter (i : nat) (kwargs : list kwarg) (df : list Expense) :
  foldl (Streamlit.edit_step i) df kwargs
  = alter (fun e => foldl apply_kwarg e kwargs) i df.
Proof.
  revert df. induction kwargs as [|kw kwargs IH]; intros df; cbn [foldl].
  - symmetry. by apply list_alter_id.
  - rewrite IH, edit_step_alter, list_alter_alter_eq. done.
Qed.

Lemma edit_loop_versions (i : nat) (kwargs : list kwarg) (df : list Expense) :
  foldl (Terminal.edit_step i) df kwargs = foldl (Streamlit.edit_step i) df kwargs.
Proof.
  revert df. induction kwargs as [|kw kwargs IH]; intros df; cbn [foldl]; [done|].
  by rewrite edit_step_versions, IH.
Qed.

Lemma apply_kwarg_unknown (e : Expense) (kw : kwarg) :
  ~ names_column kw -> apply_kwarg e kw = e.
Proof.
  unfold names_column, apply_kwarg. kwarg_cases kw k v; intros Hk; try done;
    exfalso; apply Hk; by eexists.
Qed.

Lemma apply_kwargs_known (kwargs : list kwarg) (e : Expense) :
  foldl apply_kwarg e kwargs = foldl apply_kwarg e (filter names_column kwargs).
Proof.
  revert e. induction kwargs as [|kw kwargs IH]; intros e; [done|].
  rewrite filter_cons. cbn [foldl]. destruct (decide (names_column kw)) as [Hk|Hk].
  - cbn [foldl]. apply IH.
  - rewrite apply_kwarg_unknown by done. apply IH.
Qed.

Lemma get_set_cell (c : column) (v : cell (Some c)) (e : Expense) :
  get_cell c (set_cell c v e) = v.
Proof. by destruct c. Qed.

Lemma get_set_cell_ne (c c' : column) (v : cell (Some c')) (e : Expense) :
  c' <> c -> get_cell c (set_cell c' v e) = get_cell c e.
Proof. by destruct c, c'. Qed.

Lemma apply_kwarg_other (c : column) (e : Expense) (kw : kwarg) :
  column_of (key kw) <> Some c -> get_cell c (apply_kwarg e kw) = get_cell c e.
Proof.
  destruct kw as [k v]. unfold apply_kwarg. cbn [key value].
  revert v. destruct (column_of k) as [c'|]; intros v Hk; [|done].
  apply get_set_cell_ne. congruence.
Qed.

Lemma apply_kwargs_other (c : column) (kwargs : list kwarg) (e : Expense) :
  (forall kw, kw ∈ kwargs -> column_of (key kw) <> Some c) ->
  get_cell c (foldl apply_kwarg e kwargs) = get_cell c e.
Proof.
  revert e. induction kwargs as [|kw kwargs IH]; intros e Hother; [done|].
  cbn [foldl]. rewrite IH.
  - apply apply_kwarg_other, Hother. left.
  - intros kw' Hin. apply Hother. by right.
Qed.

Lemma apply_assign (c : column) (v : cell (Some c)) (e : Expense) :
  apply_kwarg e (assign c v) = set_cell c v e.
Proof. by destruct c. Qed.

(** C10.  For an index in range, edit raises nothing and changes only the
    expense table; a keyword that names none of the columns amount, date,
    category, description, payment_method and tags is skipped, so that the
    result is the one of the call without it; the table keeps its length
    and every other record; in the record edited, a column that no keyword
    names keeps its value, and a column that is named holds the value given
    for it last. *)
Theorem edit_applies_only_named_columns (now index : Z) (kwargs : list kwarg)
  (expenses : list Expense) (budgets : list Budget) (dicts : list Terminal.BudgetDict) :
  (0 <= index < len expenses)%Z ->
  exists after,
    (Terminal.edit_expense now index kwargs (Terminal.mkManager expenses dicts)).2
      = Terminal.mkManager after dicts
    /\ (exists alerts,
          (Terminal.edit_expense now index kwargs (Terminal.mkManager expenses dicts)).1
          = Returns alerts)
    /\ Streamlit.edit_expense index kwargs (Streamlit.mkManager expenses budgets)
      = (Returns "Expense edited successfully!", Streamlit.mkManager after budgets)
    /\ (Terminal.edit_expense now index (filter names_column kwargs)
          (Terminal.mkManager expenses dicts)).2
      = Terminal.mkManager after dicts
    /\ (Streamlit.edit_expense index (filter names_column kwargs)
          (Streamlit.mkManager expenses budgets)).2
      = Streamlit.mkManager after budgets
    /\ length after = length expenses
    /\ (forall j, j <> Z.to_nat index -> after !! j = expenses !! j)
    /\ (forall c, (forall kw, kw ∈ kwargs -> column_of (key kw) <> Some c) ->
          get_cell c <$> after !! Z.to_nat index
          = get_cell c <$> expenses !! Z.to_nat index)
    /\ (forall c v earlier later,
          kwargs = earlier ++ assign c v :: later ->
          (forall kw, kw ∈ later -> column_of (key kw) <> Some c) ->
          get_cell c <$> after !! Z.to_nat index = Some v).
Proof.
  intros Hindex.
  exists (alter (fun e => foldl apply_kwarg e kwargs) (Z.to_nat index) expenses).
  unfold Terminal.edit_expense, Streamlit.edit_expense.
  cbn [Terminal.df Terminal.budgets Streamlit.expenses_df Streamlit.budgets_df].
  rewrite (in_range_guard _ index Hindex). cbn [fst snd].
  rewrite !edit_loop_versions, !edit_loop_alter.
  assert (Hknown : alter (fun e => foldl apply_kwarg e (filter names_column kwargs))
                     (Z.to_nat index) expenses
                   = alter (fun e => foldl apply_kwarg e kwargs) (Z.to_nat index) expenses).
  { apply list_alter_ext; [|done]. intros e _. symmetry. apply apply_kwargs_known. }
  rewrite Hknown.
  assert (Hlookup : exists e, expenses !! Z.to_nat index = Some e).
  { apply lookup_lt_is_Some_2. unfold len in Hindex. lia. }
  destruct Hlookup as [e He].
  repeat split; try done.
  - by eexists.
  - apply length_alter.
  - intros j Hj. apply list_lookup_alter_ne. congruence.
  - intros c Hother. rewrite list_lookup_alter_eq, He. cbn.
    f_equal. by apply apply_kwargs_other.
  - intros c v earlier later -> Hlater. rewrite list_lookup_alter_eq, He. cbn.
    f_equal. rewrite foldl_app. cbn [foldl].
    rewrite apply_kwargs_other by done. rewrite apply_assign. apply get_set_cell.
Qed.

Lemma edit_applies_only_named_columns_witness :
  exists after,
    (Terminal.edit_expense 20
       1 [assign col_amount 42%Q; mkKwarg "colour" (PyStr "red")]
       (Terminal.mkManager
          [mkExpense 500 5 "Beads" "" "Cash" ""; mkExpense 800 10 "Wire" "" "Card" ""]
          [Terminal.mkDict "Beads" 1200 "monthly" 1 None])).2
    = Terminal.mkManager after [Terminal.mkDict "Beads" 1200 "monthly" 1 None]
    /\ after = [mkExpense 500 5 "Beads" "" "Cash" ""; mkExpense 42 10 "Wire" "" "Card" ""].
Proof.
  destruct (edit_applies_only_named_columns 20 1
              [assign col_amount 42%Q; mkKwarg "colour" (PyStr "red")]
              [mkExpense 500 5 "Beads" "" "Cash" ""; mkExpense 800 10 "Wire" "" "Card" ""]
              [] [Terminal.mkDict "Beads" 1200 "monthly" 1 None])
    as (after & Hterminal & _).
  - unfold len. simpl. lia.
  - exists after. split; [exact Hterminal|].
    simpl in Hterminal. by injection Hterminal as <-.
Defined.

(** ** The budget-vs-actual table *)

Lemma is_active_active (today : Z) (b : Budget) :
  Streamlit.is_active today b = true <-> active today b.
Proof.
  unfold Streamlit.is_active, active.
  rewrite !andb_true_iff, String.eqb_eq, Z.leb_le.
  destruct (end_date b) as [d|]; cbn [orb]; rewrite ?orb_false_r, ?Z.leb_le;
    intuition congruence.
Qed.

Lemma label_eqb (b : Budget) :
  (if String.eqb (budget_category b) "overall" then "Overall" else budget_category b)
  = label b.
Proof.
  unfold label.
  destruct (String.eqb_spec (budget_category b) "overall"), (decide _); congruence.
Qed.

Lemma label_not_overall (b : Budget) : label b <> "overall".
Proof. unfold label. destruct (decide _); [discriminate | done]. Qed.

(** The percentage the code computes is the one of the specification when
    the budget is not 0. *)
Lemma percentage_nonzero (actual budget : Q) :
  ~ (budget == 0)%Q ->
  fillna0 (round1 (times100 (truediv actual budget))) = percentage_of actual budget.
Proof.
  intros Hbudget. unfold truediv, percentage_of.
  destruct (Qeq_bool budget 0) eqn:Hzero.
  - apply Qeq_bool_iff in Hzero. contradiction.
  - destruct (decide _); [contradiction | done].
Qed.

(** The percentage the code computes for a budget of 0. *)
Lemma percentage_zero (actual budget : Q) :
  (budget == 0)%Q ->
  fillna0 (round1 (times100 (truediv actual budget)))
  = if decide (0 < actual)%Q then PosInf
    else if decide (actual < 0)%Q then NegInf else Finite 0.
Proof.
  intros Hbudget. unfold truediv.
  apply Qeq_bool_iff in Hbudget. rewrite Hbudget.
  destruct (Qgtb actual 0) eqn:Hpos.
  - apply Qgtb_lt in Hpos. by destruct (decide _).
  - apply not_true_iff_false in Hpos. rewrite Qgtb_lt in Hpos.
    destruct (decide (0 < actual)%Q); [contradiction|].
    destruct (Qgtb 0 actual) eqn:Hneg.
    + apply Qgtb_lt in Hneg. by destruct (decide _).
    + apply not_true_iff_false in Hneg. rewrite Qgtb_lt in Hneg.
      by destruct (decide _).
Qed.

Lemma get_budget_vs_actual_table (today : Z) (expenses : list Expense)
  (budgets : list Budget) :
  expenses <> [] ->
  Streamlit.get_budget_vs_actual today (Streamlit.mkManager expenses budgets)
  = table_of today expenses (filter (active today) budgets).
Proof.
  intros Hexpenses. unfold Streamlit.get_budget_vs_actual, table_of.
  cbn [Streamlit.budgets_df Streamlit.expenses_df].
  rewrite (filter_mask _ (active today)) by apply is_active_active.
  destruct budgets as [|b budgets]; [done|].
  destruct expenses as [|e expenses]; [done|]. cbn [empty orb].
  destruct (filter (active today) (b :: budgets)) as [|a actives] eqn:Hactives; [done|].
  cbn [empty]. unfold table_of.
  do 2 f_equal.
  apply list_fmap_ext. intros _ b' _. cbn beta zeta.
  rewrite <- label_eqb, spent_of_spent. by destruct (String.eqb _ _).
Qed.

(** The rows of the right frame that a left row is merged with. *)
Lemma merge_matches (today : Z) (expenses : list Expense) (name : string)
  (actives : list Budget) :
  List.filter (fun r => String.eqb (fst r) name)
    (map (fun b => (label b, spent today expenses b)) actives)
  = (fun b => (label b, spent today expenses b)) <$> filter (fun b => label b = name) actives.
Proof.
  induction actives as [|b actives IH]; [done|].
  cbn [map List.filter fst]. rewrite filter_cons.
  destruct (String.eqb_spec (label b) name), (decide (label b = name));
    try congruence; by rewrite IH.
Qed.

Lemma filter_none {A : Type} (P : A -> Prop) `{!forall x, Decision (P x)} (l : list A) :
  (forall x, x ∈ l -> ~ P x) -> filter P l = [].
Proof.
  induction l as [|x l IH]; intros Hnone; [done|].
  rewrite filter_cons, decide_False by (apply Hnone; left).
  apply IH. intros y Hy. apply Hnone. by right.
Qed.

Lemma filter_same_image {A B : Type} `{EqDecision B} (f : A -> B) (l : list A) (x : A) :
  NoDup (f <$> l) -> x ∈ l -> filter (fun y => f y = f x) l = [x].
Proof.
  induction l as [|y l IH]; intros Hnodup Hx; [by apply elem_of_nil in Hx|].
  rewrite fmap_cons in Hnodup. apply NoDup_cons in Hnodup as [Hy Hnodup].
  rewrite filter_cons. apply elem_of_cons in Hx as [->|Hx].
  - rewrite decide_True by done. f_equal.
    apply filter_none. intros z Hz Heq.
    apply Hy. rewrite <- Heq. by apply list_elem_of_fmap_2.
  - rewrite decide_False; [by apply IH|].
    intros Heq. apply Hy. rewrite Heq. by apply list_elem_of_fmap_2.
Qed.

Lemma flat_map_singletons {A B C : Type} (f : B -> list C) (g : A -> B) (h : A -> C)
  (l : list A) :
  (forall x, x ∈ l -> f (g x) = [h x]) -> flat_map f (map g l) = h <$> l.
Proof.
  induction l as [|x l IH]; intros Hf; [done|].
  cbn [map flat_map]. rewrite Hf by left. rewrite IH; [done|].
  intros y Hy. apply Hf. by right.
Qed.

(** With labels that differ, every active budget is merged with its own
    actual, and the budget "overall" with none. *)
Lemma merge_left_distinct (today : Z) (expenses : list Expense) (actives : list Budget) :
  NoDup (label <$> actives) ->
  merge_left (map (fun b => (budget_category b, budget_amount b)) actives)
             (map (fun b => (label b, spent today expenses b)) actives)
  = (fun b => (budget_category b, budget_amount b,
               if decide (budget_category b = "overall") then None
               else Some (spent today expenses b))) <$> actives.
Proof.
  intros Hnodup. unfold merge_left. apply flat_map_singletons.
  intros b Hb. cbn [fst snd]. rewrite merge_matches.
  destruct (decide (budget_category b = "overall")) as [Hcat|Hcat].
  - rewrite filter_none; [done|].
    intros b' _. rewrite Hcat. apply label_not_overall.
  - assert (Hlabel : budget_category b = label b).
    { unfold label. by rewrite decide_False. }
    rewrite Hlabel, filter_same_image by done.
    by rewrite <- Hlabel.
Qed.

(** C3.  With an empty expense table the comparison table is empty,
    whatever the budgets are.  With a non-empty one and active monthly
    budgets whose labels differ, the table has exactly one row for each
    active budget, in store order; the row shows the budget's label and
    amount, difference = actual - budget, the percentage
    round(actual / budget * 100, 1) when the budget is not 0, and, for a
    budget other than "overall", actual = the amount spent in its window
    (0 when no expense matches). *)
Theorem comparison_rows_of_active_budgets (today : Z) (expenses : list Expense)
  (budgets : list Budget) :
  Streamlit.get_budget_vs_actual today (Streamlit.mkManager [] budgets) = []
  /\ (expenses <> [] ->
      NoDup (label <$> filter (active today) budgets) ->
      Forall2 (row_of_budget today expenses) (filter (active today) budgets)
        (Streamlit.get_budget_vs_actual today (Streamlit.mkManager expenses budgets))).
Proof.
  split.
  { unfold Streamlit.get_budget_vs_actual. cbn [Streamlit.expenses_df empty].
    by rewrite orb_true_r. }
  intros Hexpenses Hnodup.
  rewrite get_budget_vs_actual_table by done. unfold table_of.
  rewrite merge_left_distinct by done.
  change (map table_row) with (fmap (M := list) table_row).
  rewrite <- list_fmap_compose. apply Forall2_fmap_r, Forall_Forall2_diag, Forall_forall.
  intros b _. unfold row_of_budget, table_row, compose. cbn.
  split; [apply label_eqb|]. split; [done|]. split; [done|]. split.
  - intros Hcat. by rewrite decide_False.
  - intros Hbudget. by apply percentage_nonzero.
Qed.

Lemma comparison_rows_of_active_budgets_witness :
  Streamlit.get_budget_vs_actual 15
    (Streamlit.mkManager []
       [mkBudget "Beads" 1200 "monthly" 1 None; mkBudget "Beads" 50 "monthly" 1 None])
  = []
  /\ Forall2 (row_of_budget 15 [mkExpense 500 5 "Beads" "" "" "";
                                mkExpense 800 10 "Beads" "" "" ""])
       [mkBudget "Beads" 1200 "monthly" 1 None]
       (Streamlit.get_budget_vs_actual 15
          (Streamlit.mkManager
             [mkExpense 500 5 "Beads" "" "" ""; mkExpense 800 10 "Beads" "" "" ""]
             [mkBudget "Beads" 1200 "monthly" 1 None; mkBudget "Wire" 50 "yearly" 1 None])).
Proof.
  split.
  - apply (comparison_rows_of_active_budgets 15 []
             [mkBudget "Beads" 1200 "monthly" 1 None;
              mkBudget "Beads" 50 "monthly" 1 None]).
  - apply (comparison_rows_of_active_budgets 15
             [mkExpense 500 5 "Beads" "" "" ""; mkExpense 800 10 "Beads" "" "" ""]
             [mkBudget "Beads" 1200 "monthly" 1 None; mkBudget "Wire" 50 "yearly" 1 None]).
    + discriminate.
    + vm_compute. apply NoDup_cons. split; [by intros ?%elem_of_nil | apply NoDup_nil_2].
Defined.

(** C3, as the specification has it, fails on an empty expense table: an
    active monthly budget then gets no row, where the specification asks
    for a row with actual = 0. *)
Lemma comparison_table_counterexample :
  Streamlit.get_budget_vs_actual 15
    (Streamlit.mkManager [] [mkBudget "Beads" 1200 "monthly" 1 None]) = []
  /\ expected_table 15 [] [mkBudget "Beads" 1200 "monthly" 1 None]
     = [mkRow "Beads" 1200 0 (0 - 1200) (Finite 0)]
  /\ Streamlit.get_budget_vs_actual 15
       (Streamlit.mkManager [] [mkBudget "Beads" 1200 "monthly" 1 None])
     <> expected_table 15 [] [mkBudget "Beads" 1200 "monthly" 1 None].
Proof. repeat split; try reflexivity. discriminate. Qed.

(** Every row of the table is made of an active budget and of what the
    merge found for the budget's category. *)
Lemma merge_left_rows (left right : list (string * Q)) (x : string * Q * option Q) :
  x ∈ merge_left left right ->
  exists l, l ∈ left /\ x.1 = l
    /\ (x.2 = None \/ exists r, r ∈ right /\ r.1 = l.1 /\ x.2 = Some r.2).
Proof.
  unfold merge_left. rewrite list_elem_of_In, in_flat_map.
  intros (l & Hl & Hx). exists l. split; [by apply list_elem_of_In|].
  destruct (List.filter _ right) as [|m matches] eqn:Hmatches.
  - apply list_elem_of_In, list_elem_of_singleton in Hx as ->. split; [by destruct l|by left].
  - apply in_map_iff in Hx as (r & <- & Hr). split; [by destruct l|]. right. exists r.
    rewrite <- Hmatches in Hr. apply filter_In in Hr as [Hr Hkey].
    apply String.eqb_eq in Hkey. by rewrite <- list_elem_of_In in Hr.
Qed.

Lemma table_rows (today : Z) (self : Streamlit.ExpenseManager) (r : ComparisonRow) :
  r ∈ Streamlit.get_budget_vs_actual today self ->
  exists b merged,
    b ∈ Streamlit.budgets_df self
    /\ r = table_row (budget_category b, budget_amount b, merged)
    /\ (merged = None \/ exists b', label b' = budget_category b).
Proof.
  unfold Streamlit.get_budget_vs_actual.
  destruct (empty (Streamlit.budgets_df self) || empty (Streamlit.expenses_df self));
    [by intros ?%elem_of_nil|].
  destruct (empty (List.filter _ _)); [by intros ?%elem_of_nil|].
  rewrite list_elem_of_In, in_map_iff. intros (x & <- & Hx).
  apply list_elem_of_In, merge_left_rows in Hx as (l & Hl & Hx & Hmerged).
  apply list_elem_of_In, in_map_iff in Hl as (b & <- & Hb).
  apply filter_In in Hb as [Hb _]. exists b, x.2. split; [by apply list_elem_of_In|].
  split; [destruct x as [[] ?]; by simplify_eq/=|].
  destruct Hmerged as [Hnone|(r & Hr & Hkey & _)]; [by left|right].
  apply list_elem_of_In, in_map_iff in Hr as (b' & <- & _). exists b'.
  cbn [fst] in Hkey. rewrite <- Hkey, <- label_eqb. by destruct (String.eqb _ _).
Qed.

(** C2, what the code does: for a budget of 0 the percentage is 0 only when
    the actual is 0 as well; a positive actual gives +infinity (and a
    negative one -infinity), because [fillna(0)] replaces NaN alone. *)
Theorem zero_budget_percentage (today : Z) (self : Streamlit.ExpenseManager)
  (r : ComparisonRow) :
  r ∈ Streamlit.get_budget_vs_actual today self ->
  (row_budget r == 0)%Q ->
  row_percentage r
  = if decide (0 < row_actual r)%Q then PosInf
    else if decide (row_actual r < 0)%Q then NegInf else Finite 0.
Proof.
  intros Hr Hzero. apply table_rows in Hr as (b & merged & _ & -> & _).
  cbn in *. by apply percentage_zero.
Qed.

Lemma zero_budget_percentage_witness :
  row_percentage (mkRow "Beads" 0 50 (50 - 0) PosInf) = PosInf
  /\ Streamlit.get_budget_vs_actual 15
       (Streamlit.mkManager [mkExpense 50 10 "Beads" "" "" ""]
                            [mkBudget "Beads" 0 "monthly" 1 None])
     = [mkRow "Beads" 0 50 (50 - 0) PosInf].
Proof.
  split; [|reflexivity].
  apply (zero_budget_percentage 15
           (Streamlit.mkManager [mkExpense 50 10 "Beads" "" "" ""]
                                [mkBudget "Beads" 0 "monthly" 1 None])
           (mkRow "Beads" 0 50 (50 - 0) PosInf)).
  - vm_compute. left.
  - reflexivity.
Defined.

(** C4, what the code does: the actual of the budget "overall" is looked up
    under the label "Overall" it was stored with, the merge finds nothing
    for the key "overall", and the row shows an actual of 0 whatever the
    expenses are.  Unless a budget is itself named "Overall", every row
    labelled "Overall" has actual 0. *)
Theorem overall_row_actual_is_zero (today : Z) (self : Streamlit.ExpenseManager)
  (r : ComparisonRow) :
  r ∈ Streamlit.get_budget_vs_actual today self ->
  row_category r = "Overall" ->
  (forall b, b ∈ Streamlit.budgets_df self -> budget_category b <> "Overall") ->
  row_actual r = 0%Q.
Proof.
  intros Hr Hlabel Hnames.
  apply table_rows in Hr as (b & merged & Hb & -> & Hmerged).
  cbn in Hlabel. destruct (String.eqb_spec (budget_category b) "overall") as [Hcat|Hcat].
  - destruct Hmerged as [->|[b' Hb']]; [done|].
    rewrite Hcat in Hb'. by apply label_not_overall in Hb'.
  - by apply Hnames in Hb.
Qed.

Lemma overall_row_actual_is_zero_witness :
  row_actual (mkRow "Overall" 100 0 (0 - 100) (Finite 0)) = 0%Q
  /\ Streamlit.get_budget_vs_actual 15
       (Streamlit.mkManager [mkExpense 50 10 "Beads" "" "" ""]
                            [mkBudget "overall" 100 "monthly" 1 None])
     = [mkRow "Overall" 100 0 (0 - 100) (Finite 0)]
  /\ spent 15 [mkExpense 50 10 "Beads" "" "" ""] (mkBudget "overall" 100 "monthly" 1 None)
     = (0 + 50)%Q.
Proof.
  split; [|split; reflexivity].
  apply (overall_row_actual_is_zero 15
           (Streamlit.mkManager [mkExpense 50 10 "Beads" "" "" ""]
                                [mkBudget "overall" 100 "monthly" 1 None])
           (mkRow "Overall" 100 0 (0 - 100) (Finite 0))).
  - vm_compute. left.
  - reflexivity.
  - intros b Hb. apply list_elem_of_singleton in Hb as ->. discriminate.
Defined.

(** ** Viewing: filters *)

(** *** Plain patterns search for substrings *)




Lemma occurs_in_nil (needle : list ascii) : occurs_in needle [] <-> needle `prefix_of` [].
Proof.
  split.
  - intros (before & after & H). symmetry in H.
    apply app_eq_nil in H as [_ H]. apply app_eq_nil in H as [-> _]. done.
  - intros H. apply prefix_nil_inv in H as ->. by exists [], [].
Qed.

Lemma occurs_in_cons (needle : list ascii) (x : ascii) (hay : list ascii) :
  occurs_in needle (x :: hay) <-> needle `prefix_of` (x :: hay) \/ occurs_in needle hay.
Proof.
  split.
  - intros ([|y before] & after & H).
    + left. by exists after.
    + right. injection H as _ ->. by exists before, after.
  - intros [[after ->]|(before & after & ->)].
    + by exists [], after.
    + by exists (x :: before), after.
Qed.



#[global] Instance occurs_in_dec (needle hay : list ascii) : Decision (occurs_in needle hay).
Proof.
  induction hay as [|x hay IH].
  - refine (cast_if (decide (needle `prefix_of` []))); by rewrite occurs_in_nil.
  - refine (cast_if (decide (needle `prefix_of` (x :: hay) \/ occurs_in needle hay)));
      by rewrite occurs_in_cons.
Defined.

(** Case analysis on the key of the filter [f], the value and what depends
    on it kept in step with the type the key gives it. *)
Ltac filter_cases f name arg :=
  destruct f as [name arg];
  cbn [filter_name filter_value] in *;
  generalize dependent arg;
  destruct (filter_key_of name) as [[]|];
  intros arg.

#[global] Instance satisfies_with_dec
  (category_rule tags_rule payment_rule : string -> string -> Prop)
  `{!forall a b, Decision (category_rule a b)} `{!forall a b, Decision (tags_rule a b)}
  `{!forall a b, Decision (payment_rule a b)}
  (e : Expense) (f : filter_item)
  : Decision (satisfies_with category_rule tags_rule payment_rule e f).
Proof.
  unfold satisfies_with. filter_cases f name arg;
    [destruct arg as [[]|] | destruct arg as [[]|] | ..]; apply _.
Defined.

#[global] Instance satisfies_dec e f : Decision (satisfies e f).
Proof. unfold satisfies, contains_ignoring_case. apply _. Defined.

#[global] Instance satisfies_browser_dec e f : Decision (satisfies_browser e f).
Proof. unfold satisfies_browser, contains_ignoring_case. apply _. Defined.

#[global] Instance satisfies_terminal_dec e f : Decision (satisfies_terminal e f).
Proof. unfold satisfies_terminal, is_substring. apply _. Defined.

(** *** The filter loop *)

Lemma filter_all {A : Type} (P : A -> Prop) `{!forall x, Decision (P x)} (l : list A) :
  (forall x, P x) -> filter P l = l.
Proof.
  intros HP. induction l as [|x l IH]; [done|].
  by rewrite filter_cons, decide_True, IH.
Qed.






Lemma for_each_app {A B : Type} (body : A -> B -> outcome A) (a : A) (l1 l2 : list B) :
  for_each body a (l1 ++ l2) = a' ← for_each body a l1; for_each body a' l2.
Proof.
  revert a. induction l1 as [|x l1 IH]; intros a; [done|].
  cbn [app for_each]. destruct (body a x) as [a'| |]; cbn; [apply IH|done..].
Qed.

(** ** Viewing: sorting *)

Lemma key_leb_total (c : column) (a b : Expense) :
  key_leb c a b = true \/ key_leb c b a = true.
Proof.
  destruct c; cbn [key_leb]; try apply String.leb_total.
  - rewrite !Qle_bool_iff. destruct (Qlt_le_dec (amount a) (amount b)) as [Hlt|Hle].
    + left. by apply Qlt_le_weak.
    + by right.
  - rewrite !Z.leb_le. lia.
Qed.

Section Insertion.

Context (c : column).

Lemma insert_before_perm (x : Expense) (l : list Expense) :
  insert_before c x l ≡ₚ x :: l.
Proof.
  induction l as [|y l IH]; cbn [insert_before]; [done|].
  destruct (key_leb c x y); [done|]. rewrite IH. apply Permutation_swap.
Qed.

Lemma insert_before_hd (x y : Expense) (l : list Expense) :
  key_le c y x -> HdRel (key_le c) y l -> HdRel (key_le c) y (insert_before c x l).
Proof.
  intros Hyx Hy. destruct l as [|z l]; cbn [insert_before]; [by constructor|].
  destruct (key_leb c x z); constructor; [done|]. by apply HdRel_inv in Hy.
Qed.

Lemma insert_before_sorted (x : Expense) (l : list Expense) :
  Sorted (key_le c) l -> Sorted (key_le c) (insert_before c x l).
Proof.
  induction 1 as [|y l Hsorted IH Hy]; cbn [insert_before].
  - by repeat constructor.
  - destruct (key_leb c x y) eqn:Hxy.
    + constructor; [by constructor|]. by constructor.
    + constructor; [done|]. apply insert_before_hd; [|done].
      destruct (key_leb_total c x y); [congruence|done].
Qed.

Lemma stable_sort_sorted (df : list Expense) :
  Sorted (key_le c) (stable_sort c df).
Proof.
  induction df as [|x df IH]; [constructor|]. by apply insert_before_sorted.
Qed.

Lemma stable_sort_perm (df : list Expense) : stable_sort c df ≡ₚ df.
Proof.
  induction df as [|x df IH]; [done|].
  cbn [stable_sort foldr]. rewrite insert_before_perm. by constructor.
Qed.

End Insertion.

(** A sort that [sort_values] may be: insertion sort returns the rows in
    ascending order, so the interface can be met. *)
Definition stable_pandas : Pandas :=
  {| sort_values := stable_sort;
     sort_values_sorted := stable_sort_sorted;
     sort_values_perm := stable_sort_perm |}.

(** ** Viewing: what the two versions return *)




Lemma unknown_filter_skipped_browser (df_view : list Expense) (f : filter_item) :
  filter_key_of (filter_name f) = None -> Streamlit.apply_filter df_view f = Returns df_view.
Proof.
  unfold Streamlit.apply_filter. by filter_cases f name arg.
Qed.

Lemma unknown_filter_skipped_terminal (df_view : list Expense) (f : filter_item) :
  filter_key_of (filter_name f) = None -> Terminal.apply_filter df_view f = Returns df_view.
Proof.
  unfold Terminal.apply_filter. by filter_cases f name arg.
Qed.

Lemma for_each_skip {A B : Type} (body : A -> B -> outcome A) (a : A) (x : B)
  (l1 l2 : list B) :
  (forall a', body a' x = Returns a') ->
  for_each body a (l1 ++ x :: l2) = for_each body a (l1 ++ l2).
Proof.
  intros Hskip. rewrite !for_each_app.
  destruct (for_each body a l1) as [a'| |]; cbn; [|done..].
  by rewrite Hskip.
Qed.

(** C9.  In both versions a filter key that is not one of date_range,
    amount_range, category, payment_method and tags is ignored: the view is
    the one without that key, whatever the other filters and the sort key
    are.  A sort key is ignored only when it is empty; a sort key that
    names no column makes a view that would return raise [KeyError]. *)
Theorem unknown_filter_key_is_ignored `{Pandas} (earlier later filters : list filter_item)
  (f : filter_item) (sort_by : option string) (name : string)
  (expenses : list Expense) (budgets : list Budget) (dicts : list Terminal.BudgetDict) :
  filter_key_of (filter_name f) = None ->
  column_of name = None ->
  name <> "" ->
  Streamlit.view_expenses (earlier ++ f :: later) sort_by
    (Streamlit.mkManager expenses budgets)
  = Streamlit.view_expenses (earlier ++ later) sort_by
      (Streamlit.mkManager expenses budgets)
  /\ Terminal.view_expenses (earlier ++ f :: later) sort_by
       (Terminal.mkManager expenses dicts)
     = Terminal.view_expenses (earlier ++ later) sort_by
         (Terminal.mkManager expenses dicts)
  /\ Streamlit.view_expenses filters (Some "") (Streamlit.mkManager expenses budgets)
     = Streamlit.view_expenses filters None (Streamlit.mkManager expenses budgets)
  /\ Terminal.view_expenses filters (Some "") (Terminal.mkManager expenses dicts)
     = Terminal.view_expenses filters None (Terminal.mkManager expenses dicts)
  /\ (forall df_view,
        Streamlit.view_expenses filters None (Streamlit.mkManager expenses budgets)
        = Returns df_view ->
        Streamlit.view_expenses filters (Some name) (Streamlit.mkManager expenses budgets)
        = Raises KeyError)
  /\ (forall df_view,
        Terminal.view_expenses filters None (Terminal.mkManager expenses dicts)
        = Returns df_view ->
        Terminal.view_expenses filters (Some name) (Terminal.mkManager expenses dicts)
        = Raises KeyError).
Proof.
  intros Hkey Hcolumn Hname.
  unfold Streamlit.view_expenses, Terminal.view_expenses.
  cbn [Streamlit.expenses_df Terminal.df].
  rewrite !for_each_skip
    by (intros; by first [apply unknown_filter_skipped_browser
                         |apply unknown_filter_skipped_terminal]).
  apply String.eqb_neq in Hname. rewrite Hname, Hcolumn. cbn [String.eqb].
  repeat split; try done.
  - intros df_view. by destruct (for_each Streamlit.apply_filter expenses filters).
  - intros df_view. by destruct (for_each Terminal.apply_filter expenses filters).
Qed.

Lemma unknown_filter_key_is_ignored_witness :
  @Streamlit.view_expenses stable_pandas
    ([mkFilter "category" "bead"] ++ mkFilter "colour" (PyStr "red") :: [])
    (Some "amount")
    (Streamlit.mkManager
       [mkExpense 800 10 "Beads" "" "Card" ""; mkExpense 500 5 "Glass Beads" "" "Card" "";
        mkExpense 20 7 "Wire" "" "Card" ""] [])
  = Returns [mkExpense 500 5 "Glass Beads" "" "Card" ""; mkExpense 800 10 "Beads" "" "Card" ""].
Proof.
  etrans.
  - apply (@unknown_filter_key_is_ignored stable_pandas
             [mkFilter "category" "bead"] [] [] (mkFilter "colour" (PyStr "red"))
             (Some "amount") "price"
             [mkExpense 800 10 "Beads" "" "Card" "";
              mkExpense 500 5 "Glass Beads" "" "Card" "";
              mkExpense 20 7 "Wire" "" "Card" ""] [] []);
      [reflexivity | reflexivity | discriminate].
  - reflexivity.
Defined.

(** C9, as the specification has it, fails for the sort key: a sort key
    that names no column raises [KeyError], where the view without it
    returns. *)
Lemma unknown_sort_key_counterexample :
  @Streamlit.view_expenses stable_pandas [] (Some "price")
    (Streamlit.mkManager [mkExpense 12 5 "Food" "" "Cash" ""] [])
  = Raises KeyError
  /\ @Terminal.view_expenses stable_pandas [] (Some "price")
       (Terminal.mkManager [mkExpense 12 5 "Food" "" "Cash" ""] [])
     = Raises KeyError
  /\ @Streamlit.view_expenses stable_pandas [] None
       (Streamlit.mkManager [mkExpense 12 5 "Food" "" "Cash" ""] [])
     = Returns [mkExpense 12 5 "Food" "" "Cash" ""].
Proof. repeat split. Qed.

(** ** The scenarios of the specification

    Dates are written as the numbers yyyymmdd, which are in date order. *)

(** Two expenses of 500 and 800 under a monthly budget of 1200: an alert
    with spent = 1300, and the row with difference 100 and 108.3 percent. *)
Example jewelry_supplies_scenario :
  Streamlit.get_alerts 20251215
    (Streamlit.mkManager
       [mkExpense 500 20251205 "Jewelry Supplies" "" "" "";
        mkExpense 800 20251210 "Jewelry Supplies" "" "" ""]
       [mkBudget "Jewelry Supplies" 1200 "monthly" 20251201 None])
  = [("Jewelry Supplies", 1200%Q, 1300%Q)]
  /\ Streamlit.get_budget_vs_actual 20251215
       (Streamlit.mkManager
          [mkExpense 500 20251205 "Jewelry Supplies" "" "" "";
           mkExpense 800 20251210 "Jewelry Supplies" "" "" ""]
          [mkBudget "Jewelry Supplies" 1200 "monthly" 20251201 None])
     = [mkRow "Jewelry Supplies" 1200 1300 100 (Finite (1083 # 10))].
Proof. split; vm_compute; reflexivity. Qed.

(** A budget of 400.00 that is spent exactly raises no alert; one cent more
    raises the alert ("Marketing", 400.00, 400.01). *)
Example marketing_boundary :
  Streamlit.get_alerts 20251215
    (Streamlit.mkManager [mkExpense 400 20251203 "Marketing" "" "" ""]
                         [mkBudget "Marketing" 400 "monthly" 20251201 None])
  = []
  /\ Streamlit.get_alerts 20251215
       (Streamlit.mkManager [mkExpense (40001 # 100) 20251203 "Marketing" "" "" ""]
                            [mkBudget "Marketing" 400 "monthly" 20251201 None])
     = [("Marketing", 400%Q, (40001 # 100)%Q)]
  /\ Terminal._check_budget_alerts 20251215
       (Terminal.mkManager [mkExpense (40001 # 100) 20251203 "Marketing" "" "" ""]
                           [Terminal.mkDict "Marketing" 400 "monthly" 20251201 None])
     = [("Marketing", "monthly", 400%Q, (40001 # 100)%Q)].
Proof. repeat split; vm_compute; reflexivity. Qed.

(** After a delete at index 0 the index 0 addresses the record that was at
    index 1, and a delete at the length of the store fails. *)
Example delete_then_edit :
  (Streamlit.edit_expense 0 [assign col_amount 7%Q]
     (Streamlit.delete_expense 0
        (Streamlit.mkManager
           [mkExpense 500 20251205 "Beads" "" "" ""; mkExpense 800 20251210 "Wire" "" "" ""]
           [])).2).2
  = Streamlit.mkManager [mkExpense 7 20251210 "Wire" "" "" ""] []
  /\ (Streamlit.delete_expense 2
        (Streamlit.mkManager
           [mkExpense 500 20251205 "Beads" "" "" ""; mkExpense 800 20251210 "Wire" "" "" ""]
           [])).1
     = Raises IndexError.
Proof. split; reflexivity. Qed.

(** ** Adding records and budgets *)

(** X1.  [add_expense] appends: in both versions the table has one row
    more, the new record is at the index that was the length of the
    table, the records before keep their index, and the budgets are not
    touched. *)
Theorem add_expense_appends (now : Z) (e : Expense) (terminal : Terminal.ExpenseManager)
  (browser : Streamlit.ExpenseManager) :
  (length (Terminal.df (Terminal.add_expense now e terminal).2)
   = S (length (Terminal.df terminal))
   /\ Terminal.df (Terminal.add_expense now e terminal).2 !! length (Terminal.df terminal)
      = Some e
   /\ (forall i, (i < length (Terminal.df terminal))%nat ->
         Terminal.df (Terminal.add_expense now e terminal).2 !! i
         = Terminal.df terminal !! i)
   /\ Terminal.budgets (Terminal.add_expense now e terminal).2 = Terminal.budgets terminal)
  /\ (length (Streamlit.expenses_df (Streamlit.add_expense e browser).2)
      = S (length (Streamlit.expenses_df browser))
      /\ Streamlit.expenses_df (Streamlit.add_expense e browser).2
           !! length (Streamlit.expenses_df browser) = Some e
      /\ (forall i, (i < length (Streamlit.expenses_df browser))%nat ->
            Streamlit.expenses_df (Streamlit.add_expense e browser).2 !! i
            = Streamlit.expenses_df browser !! i)
      /\ Streamlit.budgets_df (Streamlit.add_expense e browser).2
         = Streamlit.budgets_df browser).
Proof.
  destruct terminal as [df budgets], browser as [expenses_df budgets_df].
  destruct e as [a d c ds p t].
  unfold Terminal.add_expense, Streamlit.add_expense.
  cbn [snd Terminal.df Terminal.budgets Streamlit.expenses_df Streamlit.budgets_df
       set_cell to_datetime date amount category description payment_method tags].
  rewrite !length_app. cbn [length].
  repeat split; try done; try lia.
  - by rewrite lookup_app_r, Nat.sub_diag.
  - intros i Hi. by apply lookup_app_l.
  - by rewrite lookup_app_r, Nat.sub_diag.
  - intros i Hi. by apply lookup_app_l.
Qed.







Lemma add_budget_state (today : Z) (category : string) (amount : Q) (period : string)
  (start_date end_date : option Z) (expenses : list Expense) (budgets : list Budget) :
  (Streamlit.add_budget today category amount period start_date end_date
     (Streamlit.mkManager expenses budgets)).2
  = Streamlit.mkManager expenses
      (budgets ++ [new_budget today category amount period start_date end_date]).
Proof.
  unfold Streamlit.add_budget, new_budget, to_datetime. cbn [snd].
  do 3 f_equal. destruct (String.eqb_spec category ""), (decide _), start_date, end_date;
    by try congruence.
Qed.

Lemma browser_alerts_app (now : Z) (expenses : list Expense) (bs1 bs2 : list Budget) :
  Streamlit.get_alerts now (Streamlit.mkManager expenses (bs1 ++ bs2))
  = Streamlit.get_alerts now (Streamlit.mkManager expenses bs1)
    ++ Streamlit.get_alerts now (Streamlit.mkManager expenses bs2).
Proof. by rewrite !browser_alerts_collect, filter_app, fmap_app. Qed.

Lemma terminal_alerts_app (now : Z) (expenses : list Expense)
  (bs1 bs2 : list Terminal.BudgetDict) :
  Terminal._check_budget_alerts now (Terminal.mkManager expenses (bs1 ++ bs2))
  = Terminal._check_budget_alerts now (Terminal.mkManager expenses bs1)
    ++ Terminal._check_budget_alerts now (Terminal.mkManager expenses bs2).
Proof. by rewrite !terminal_alerts_collect, filter_app, fmap_app. Qed.

(** X3.  Adding a budget changes no alert of the budgets there already: in
    both versions the alerts after the add are the alerts before it,
    followed by the alert of the new budget if that one is overspent.  The
    budget stored has the category "overall" when the category given is
    blank and starts today when no start date is given; a budget added with
    a blank category is measured against all the expenses dated in its
    window, whatever their categories. *)
Theorem add_budget_alerts (today now : Z) (category : string) (amt : Q)
  (period : string) (start_date end_date : option Z) (expenses : list Expense)
  (budgets : list Budget) (dicts : list Terminal.BudgetDict) :
  Streamlit.get_alerts now
    (Streamlit.add_budget today category amt period start_date end_date
       (Streamlit.mkManager expenses budgets)).2
  = Streamlit.get_alerts now (Streamlit.mkManager expenses budgets)
    ++ Streamlit.get_alerts now
         (Streamlit.mkManager expenses
            [new_budget today category amt period start_date end_date])
  /\ (Terminal.set_budget now today category amt period start_date end_date
        (Terminal.mkManager expenses dicts)).1
     = Returns
         (Terminal._check_budget_alerts now (Terminal.mkManager expenses dicts)
          ++ Terminal._check_budget_alerts now
               (Terminal.mkManager expenses
                  [in_memory (new_budget today category amt period start_date end_date)]))
  /\ Streamlit.spent_of now expenses
       (new_budget today "" amt period start_date end_date)
     = sum (amount <$>
              filter (in_window now (new_budget today "" amt period start_date end_date))
                     expenses).
Proof.
  split; [|split].
  - by rewrite add_budget_state, browser_alerts_app.
  - unfold Terminal.set_budget. cbn [fst Terminal.df Terminal.budgets].
    f_equal. rewrite terminal_alerts_app. do 3 f_equal.
    unfold new_budget, in_memory. cbn.
    destruct (String.eqb_spec category ""), (decide _), start_date; by try congruence.
  - rewrite spent_of_spent. unfold spent. do 2 f_equal.
    apply list_filter_iff. intros e. unfold selected, category_matches.
    cbn [new_budget budget_category]. rewrite decide_True by done. tauto.
Qed.

(** X4.  Deleting a budget withdraws the alert of that budget and no other:
    with the alerts of the budgets before it, of the budget at the index,
    and of the budgets after it computed apart, the alerts before the
    delete are the three in a row and the alerts after it are the first and
    the last. *)
Theorem delete_budget_alerts (now index : Z) (expenses : list Expense)
  (budgets : list Budget) (b : Budget) :
  (0 <= index)%Z ->
  budgets !! Z.to_nat index = Some b ->
  Streamlit.get_alerts now (Streamlit.mkManager expenses budgets)
  = Streamlit.get_alerts now
      (Streamlit.mkManager expenses (take (Z.to_nat index) budgets))
    ++ Streamlit.get_alerts now (Streamlit.mkManager expenses [b])
    ++ Streamlit.get_alerts now
         (Streamlit.mkManager expenses (drop (S (Z.to_nat index)) budgets))
  /\ Streamlit.get_alerts now
       (Streamlit.delete_budget index (Streamlit.mkManager expenses budgets)).2
     = Streamlit.get_alerts now
         (Streamlit.mkManager expenses (take (Z.to_nat index) budgets))
       ++ Streamlit.get_alerts now
            (Streamlit.mkManager expenses (drop (S (Z.to_nat index)) budgets)).
Proof.
  intros Hindex Hb. split.
  - rewrite <- !browser_alerts_app. do 2 f_equal. cbn [app].
    symmetry. by apply take_drop_middle.
  - unfold Streamlit.delete_budget. cbn [Streamlit.budgets_df Streamlit.expenses_df].
    rewrite in_range_guard.
    + cbn [snd]. by rewrite delete_take_drop, browser_alerts_app.
    + apply lookup_lt_Some in Hb. unfold len. lia.
Qed.

Lemma delete_budget_alerts_witness :
  Streamlit.get_alerts 20
    (Streamlit.delete_budget 0
       (Streamlit.mkManager [mkExpense 500 5 "Beads" "" "" ""; mkExpense 80 7 "Wire" "" "" ""]
                            [mkBudget "Beads" 400 "monthly" 1 None;
                             mkBudget "Wire" 50 "monthly" 1 None])).2
  = [("Wire", 50%Q, (0 + 80)%Q)].
Proof.
  etrans.
  - apply (delete_budget_alerts 20 0
             [mkExpense 500 5 "Beads" "" "" ""; mkExpense 80 7 "Wire" "" "" ""]
             [mkBudget "Beads" 400 "monthly" 1 None; mkBudget "Wire" 50 "monthly" 1 None]
             (mkBudget "Beads" 400 "monthly" 1 None)); [lia | reflexivity].
  - reflexivity.
Defined.

(** *** Editing a budget *)

Ltac budget_kwarg_cases kw k v :=
  destruct kw as [k v];
  cbn [budget_key budget_value] in *;
  generalize dependent v;
  destruct (budget_column_of k) as [[]|];
  intros v.

Lemma edit_budget_step_alter (i : nat) (df : list Budget) (kw : budget_kwarg) :
  Streamlit.edit_budget_step i df kw = alter (fun b => apply_budget_kwarg b kw) i df.
Proof.
  unfold Streamlit.edit_budget_step, apply_budget_kwarg.
  budget_kwarg_cases kw k v; try done.
  - by destruct v.
  - symmetry. by apply list_alter_id.
Qed.

Lemma edit_budget_loop_alter (i : nat) (kwargs : list budget_kwarg) (df : list Budget) :
  foldl (Streamlit.edit_budget_step i) df kwargs
  = alter (fun b => foldl apply_budget_kwarg b kwargs) i df.
Proof.
  revert df. induction kwargs as [|kw kwargs IH]; intros df; cbn [foldl].
  - symmetry. by apply list_alter_id.
  - by rewrite IH, edit_budget_step_alter, list_alter_alter_eq.
Qed.

Lemma apply_budget_kwarg_unknown (b : Budget) (kw : budget_kwarg) :
  ~ names_budget_column kw -> apply_budget_kwarg b kw = b.
Proof.
  unfold names_budget_column, apply_budget_kwarg.
  budget_kwarg_cases kw k v; intros Hk; try done; exfalso; apply Hk; by eexists.
Qed.

Lemma apply_budget_kwargs_known (kwargs : list budget_kwarg) (b : Budget) :
  foldl apply_budget_kwarg b kwargs
  = foldl apply_budget_kwarg b (filter names_budget_column kwargs).
Proof.
  revert b. induction kwargs as [|kw kwargs IH]; intros b; [done|].
  rewrite filter_cons. cbn [foldl]. destruct (decide (names_budget_column kw)) as [Hk|Hk].
  - cbn [foldl]. apply IH.
  - rewrite apply_budget_kwarg_unknown by done. apply IH.
Qed.

Lemma get_set_budget_cell (c : budget_column) (v : budget_cell (Some c)) (b : Budget) :
  get_budget_cell c (set_budget_cell c v b) = v.
Proof. by destruct c. Qed.

Lemma apply_budget_kwarg_other (c : budget_column) (b : Budget) (kw : budget_kwarg) :
  budget_column_of (budget_key kw) <> Some c ->
  get_budget_cell c (apply_budget_kwarg b kw) = get_budget_cell c b.
Proof.
  unfold apply_budget_kwarg. budget_kwarg_cases kw k v; intros Hk; try done;
    destruct c; try done; by destruct Hk.
Qed.

Lemma apply_budget_kwargs_other (c : budget_column) (kwargs : list budget_kwarg)
  (b : Budget) :
  (forall kw, kw ∈ kwargs -> budget_column_of (budget_key kw) <> Some c) ->
  get_budget_cell c (foldl apply_budget_kwarg b kwargs) = get_budget_cell c b.
Proof.
  revert b. induction kwargs as [|kw kwargs IH]; intros b Hother; [done|].
  cbn [foldl]. rewrite IH.
  - apply apply_budget_kwarg_other, Hother. left.
  - intros kw' Hin. apply Hother. by right.
Qed.

Lemma apply_budget_assign (c : budget_column) (v : budget_cell (Some c)) (b : Budget) :
  apply_budget_kwarg b (budget_assign c v) = set_budget_cell c v b.
Proof. by destruct c. Qed.

(** X5.  For an index in range, [edit_budget] raises nothing and changes
    only the budget at the index: the expenses, the number of budgets and
    every other budget stay as they are; a keyword that names none of the
    columns category, amount, period, start_date and end_date is skipped;
    in the budget edited, a column that no keyword names keeps its value
    and a column that is named holds the value given for it last.  In
    particular an end date given as [None] leaves the budget without end
    date. *)
Theorem edit_budget_applies_only_named_columns (index : Z) (kwargs : list budget_kwarg)
  (expenses : list Expense) (budgets : list Budget) :
  (0 <= index < len budgets)%Z ->
  exists after,
    Streamlit.edit_budget index kwargs (Streamlit.mkManager expenses budgets)
    = (Returns "Budget edited successfully!", Streamlit.mkManager expenses after)
    /\ (Streamlit.edit_budget index (filter names_budget_column kwargs)
          (Streamlit.mkManager expenses budgets)).2
       = Streamlit.mkManager expenses after
    /\ length after = length budgets
    /\ (forall j, j <> Z.to_nat index -> after !! j = budgets !! j)
    /\ (forall c, (forall kw, kw ∈ kwargs -> budget_column_of (budget_key kw) <> Some c) ->
          get_budget_cell c <$> after !! Z.to_nat index
          = get_budget_cell c <$> budgets !! Z.to_nat index)
    /\ (forall c v earlier later,
          kwargs = earlier ++ budget_assign c v :: later ->
          (forall kw, kw ∈ later -> budget_column_of (budget_key kw) <> Some c) ->
          get_budget_cell c <$> after !! Z.to_nat index = Some v).
Proof.
  intros Hindex.
  exists (alter (fun b => foldl apply_budget_kwarg b kwargs) (Z.to_nat index) budgets).
  unfold Streamlit.edit_budget.
  cbn [Streamlit.expenses_df Streamlit.budgets_df].
  rewrite (in_range_guard _ index Hindex). cbn [snd].
  rewrite !edit_budget_loop_alter.
  assert (Hknown : alter (fun b => foldl apply_budget_kwarg b
                                     (filter names_budget_column kwargs))
                     (Z.to_nat index) budgets
                   = alter (fun b => foldl apply_budget_kwarg b kwargs)
                       (Z.to_nat index) budgets).
  { apply list_alter_ext; [|done]. intros b _. symmetry. apply apply_budget_kwargs_known. }
  rewrite Hknown.
  assert (Hlookup : exists b, budgets !! Z.to_nat index = Some b).
  { apply lookup_lt_is_Some_2. unfold len in Hindex. lia. }
  destruct Hlookup as [b Hb].
  repeat split; try done.
  - apply length_alter.
  - intros j Hj. apply list_lookup_alter_ne. congruence.
  - intros c Hother. rewrite list_lookup_alter_eq, Hb. cbn.
    f_equal. by apply apply_budget_kwargs_other.
  - intros c v earlier later -> Hlater. rewrite list_lookup_alter_eq, Hb. cbn.
    f_equal. rewrite foldl_app. cbn [foldl].
    rewrite apply_budget_kwargs_other by done. rewrite apply_budget_assign.
    apply get_set_budget_cell.
Qed.

Lemma edit_budget_applies_only_named_columns_witness :
  exists after,
    Streamlit.edit_budget 0
      [budget_assign bcol_end_date None; mkBudgetKwarg "colour" (PyStr "red")]
      (Streamlit.mkManager [] [mkBudget "Beads" 400 "monthly" 1 (Some 31%Z)])
    = (Returns "Budget edited successfully!", Streamlit.mkManager [] after)
    /\ after = [mkBudget "Beads" 400 "monthly" 1 None].
Proof.
  destruct (edit_budget_applies_only_named_columns 0
              [budget_assign bcol_end_date None; mkBudgetKwarg "colour" (PyStr "red")]
              [] [mkBudget "Beads" 400 "monthly" 1 (Some 31%Z)])
    as (after & Hedit & _).
  - unfold len. simpl. lia.
  - exists after. split; [exact Hedit|].
    simpl in Hedit. by injection Hedit as <-.
Defined.

(** ** The reports *)

(** *** Summary *)

Lemma generate_summary_filters `{Pandas} (date_range : option (Z * Z))
  (expenses : list Expense) (budgets : list Budget) (dicts : list Terminal.BudgetDict) :
  StreamlitReports.generate_summary date_range (Streamlit.mkManager expenses budgets)
  = Returns (summarise (filter (dated_within date_range) expenses))
  /\ TerminalReports.generate_summary date_range (Terminal.mkManager expenses dicts)
     = Returns (summarise (filter (dated_within date_range) expenses)).
Proof.
  destruct date_range as [[s e]|].
  - rewrite <- (filter_mask (fun x => (to_datetime s <=? date x)%Z
                                      && (date x <=? to_datetime e)%Z)).
    + split; reflexivity.
    + intros x. unfold to_datetime. cbn. rewrite andb_true_iff, !Z.leb_le. done.
  - rewrite filter_all by done. split; reflexivity.
Qed.

(** X6.  In both versions [generate_summary] summarises exactly the
    expenses dated within the range given, both ends included, and all the
    expenses when no range is given; it returns no statistics (the browser
    version [None], the terminal version the text "No expenses found.")
    exactly when no expense is dated within the range, and it raises
    nothing.  [custom_range_report] is the summary of its range. *)
Theorem summary_covers_date_range `{Pandas} (date_range : option (Z * Z))
  (start end_ : Z) (expenses : list Expense) (budgets : list Budget)
  (dicts : list Terminal.BudgetDict) :
  (StreamlitReports.generate_summary date_range (Streamlit.mkManager expenses budgets)
   = Returns (summarise (filter (dated_within date_range) expenses))
   /\ TerminalReports.generate_summary date_range (Terminal.mkManager expenses dicts)
      = Returns (summarise (filter (dated_within date_range) expenses)))
  /\ (summarise (filter (dated_within date_range) expenses) = None
      <-> filter (dated_within date_range) expenses = [])
  /\ (StreamlitReports.custom_range_report start end_
        (Streamlit.mkManager expenses budgets)
      = Returns (summarise (filter (dated_within (Some (start, end_))) expenses))
      /\ TerminalReports.custom_range_report start end_
           (Terminal.mkManager expenses dicts)
         = Returns (summarise (filter (dated_within (Some (start, end_))) expenses))).
Proof.
  split; [apply generate_summary_filters|].
  split; [|apply generate_summary_filters].
  destruct (filter (dated_within date_range) expenses) as [|x l].
  - split; reflexivity.
  - split; intros Hx; discriminate Hx.
Qed.

Lemma minimum_below_first (x : Q) (rest : list Q) : (minimum x rest <= x)%Q.
Proof.
  unfold minimum. revert x. induction rest as [|z rest IH]; intros x; cbn [foldl].
  - apply Qle_refl.
  - eapply Qle_trans; [apply IH | apply Q.le_min_l].
Qed.

Lemma maximum_above_first (x : Q) (rest : list Q) : (x <= maximum x rest)%Q.
Proof.
  unfold maximum. revert x. induction rest as [|z rest IH]; intros x; cbn [foldl].
  - apply Qle_refl.
  - eapply Qle_trans; [apply Q.le_max_l | apply IH].
Qed.

Lemma minimum_least (x : Q) (rest : list Q) (y : Q) :
  y ∈ x :: rest -> (minimum x rest <= y)%Q.
Proof.
  revert x. induction rest as [|z rest IH]; intros x Hy.
  - apply list_elem_of_singleton in Hy as ->. apply Qle_refl.
  - change (minimum x (z :: rest)) with (minimum (Qmin x z) rest).
    apply elem_of_cons in Hy as [->|Hy].
    + eapply Qle_trans; [apply minimum_below_first | apply Q.le_min_l].
    + apply elem_of_cons in Hy as [->|Hy].
      * eapply Qle_trans; [apply minimum_below_first | apply Q.le_min_r].
      * apply IH. by right.
Qed.

Lemma maximum_greatest (x : Q) (rest : list Q) (y : Q) :
  y ∈ x :: rest -> (y <= maximum x rest)%Q.
Proof.
  revert x. induction rest as [|z rest IH]; intros x Hy.
  - apply list_elem_of_singleton in Hy as ->. apply Qle_refl.
  - change (maximum x (z :: rest)) with (maximum (Qmax x z) rest).
    apply elem_of_cons in Hy as [->|Hy].
    + eapply Qle_trans; [apply Q.le_max_l | apply maximum_above_first].
    + apply elem_of_cons in Hy as [->|Hy].
      * eapply Qle_trans; [apply Q.le_max_r | apply maximum_above_first].
      * apply IH. by right.
Qed.

Lemma minimum_attained (x : Q) (rest : list Q) :
  exists y, y ∈ x :: rest /\ (minimum x rest == y)%Q.
Proof.
  unfold minimum. revert x. induction rest as [|z rest IH]; intros x; cbn [foldl].
  - exists x. split; [left | reflexivity].
  - destruct (IH (Qmin x z)) as (y & Hy & Heq).
    apply elem_of_cons in Hy as [->|Hy].
    + destruct (Q.min_dec x z) as [Hmin|Hmin].
      * exists x. split; [left | by rewrite Heq].
      * exists z. split; [right; left | by rewrite Heq].
    + exists y. split; [by do 2 right | done].
Qed.

Lemma maximum_attained (x : Q) (rest : list Q) :
  exists y, y ∈ x :: rest /\ (maximum x rest == y)%Q.
Proof.
  unfold maximum. revert x. induction rest as [|z rest IH]; intros x; cbn [foldl].
  - exists x. split; [left | reflexivity].
  - destruct (IH (Qmax x z)) as (y & Hy & Heq).
    apply elem_of_cons in Hy as [->|Hy].
    + destruct (Q.max_dec x z) as [Hmax|Hmax].
      * exists x. split; [left | by rewrite Heq].
      * exists z. split; [right; left | by rewrite Heq].
    + exists y. split; [by do 2 right | done].
Qed.

Lemma insert_value_perm (x : Q) (l : list Q) : insert_value x l ≡ₚ x :: l.
Proof.
  induction l as [|y l IH]; cbn [insert_value]; [done|].
  destruct (Qle_bool x y); [done|]. rewrite IH. apply Permutation_swap.
Qed.

Lemma sorted_values_perm (xs : list Q) : sorted_values xs ≡ₚ xs.
Proof.
  induction xs as [|x xs IH]; [done|].
  cbn [sorted_values foldr]. rewrite insert_value_perm. by constructor.
Qed.

Lemma sorted_value_in (xs : list Q) (i : nat) :
  (i < length xs)%nat -> nth i (sorted_values xs) 0%Q ∈ xs.
Proof.
  intros Hi. apply (elem_of_Permutation_proper _ _ _ (sorted_values_perm xs)).
  apply list_elem_of_In, nth_In. by rewrite (Permutation_length (sorted_values_perm xs)).
Qed.

Lemma half_lt (n : nat) : (0 < n)%nat -> (n / 2 < n)%nat.
Proof. intros Hn. apply Nat.div_lt; lia. Qed.

(** X7.  The statistics that [generate_summary] returns are taken from the
    expenses in the range: the minimum and the maximum are amounts of
    expenses in the range and no expense in the range has a smaller,
    respectively larger, amount; for an odd number of expenses in the
    range the median is the amount of one of them; and the standard
    deviation is NaN exactly when a single expense is in the range. *)
Theorem summary_is_consistent `{Pandas} (date_range : option (Z * Z))
  (expenses : list Expense) (budgets : list Budget) (dicts : list Terminal.BudgetDict)
  (s : Summary) :
  StreamlitReports.generate_summary date_range (Streamlit.mkManager expenses budgets)
    = Returns (Some s)
  \/ TerminalReports.generate_summary date_range (Terminal.mkManager expenses dicts)
     = Returns (Some s) ->
  (exists e, e ∈ filter (dated_within date_range) expenses /\ (Min s == amount e)%Q)
  /\ (exists e, e ∈ filter (dated_within date_range) expenses /\ (Max s == amount e)%Q)
  /\ (forall e, e ∈ filter (dated_within date_range) expenses ->
        (Min s <= amount e)%Q /\ (amount e <= Max s)%Q)
  /\ (Nat.even (length (filter (dated_within date_range) expenses)) = false ->
      exists e, e ∈ filter (dated_within date_range) expenses /\ Median s = amount e)
  /\ (Std_Dev s = NoDeviation
      <-> length (filter (dated_within date_range) expenses) = 1%nat).
Proof.
  intros Hsummary.
  assert (Hs : summarise (filter (dated_within date_range) expenses) = Some s).
  { destruct (generate_summary_filters date_range expenses budgets dicts) as [Hb Ht].
    destruct Hsummary as [Hs|Hs]; [rewrite Hb in Hs | rewrite Ht in Hs]; congruence. }
  clear Hsummary. unfold summarise in Hs.
  assert (Hlength : length (filter (dated_within date_range) expenses)
                    = length (amount <$> filter (dated_within date_range) expenses)).
  { by rewrite length_fmap. }
  assert (Hin : forall y, y ∈ amount <$> filter (dated_within date_range) expenses ->
                  exists e, e ∈ filter (dated_within date_range) expenses /\ y = amount e).
  { intros y Hy. apply list_elem_of_fmap in Hy as (e & -> & He). by exists e. }
  assert (Hamount : forall e, e ∈ filter (dated_within date_range) expenses ->
                      amount e ∈ amount <$> filter (dated_within date_range) expenses).
  { intros e He. by apply list_elem_of_fmap_2. }
  rewrite Hlength. clear Hlength.
  destruct (amount <$> filter (dated_within date_range) expenses) as [|x rest];
    [discriminate|].
  injection Hs as <-. cbn [Total Average Median Min Max Std_Dev].
  split; [|split; [|split; [|split]]].
  - destruct (minimum_attained x rest) as (y & Hy & Heq).
    destruct (Hin y Hy) as (e & He & ->). by exists e.
  - destruct (maximum_attained x rest) as (y & Hy & Heq).
    destruct (Hin y Hy) as (e & He & ->). by exists e.
  - intros e He%Hamount. split; [by apply minimum_least | by apply maximum_greatest].
  - intros Hodd. unfold median. rewrite Hodd. apply Hin, sorted_value_in, half_lt.
    cbn. lia.
  - unfold std. split; by destruct rest.
Qed.

Lemma summary_is_consistent_witness :
  exists s,
    @StreamlitReports.generate_summary stable_pandas (Some (1, 12)%Z)
      (Streamlit.mkManager
         [mkExpense 500 5 "Beads" "" "" ""; mkExpense 800 10 "Wire" "" "" "";
          mkExpense 20 12 "Clasps" "" "" ""; mkExpense 7 30 "Wire" "" "" ""] [])
    = Returns (Some s)
    /\ Median s = 500%Q
    /\ exists e,
         e ∈ filter (dated_within (Some (1, 12)%Z))
               [mkExpense 500 5 "Beads" "" "" ""; mkExpense 800 10 "Wire" "" "" "";
                mkExpense 20 12 "Clasps" "" "" ""; mkExpense 7 30 "Wire" "" "" ""]
         /\ Median s = amount e.
Proof.
  eexists. split; [reflexivity|]. split; [reflexivity|].
  apply (@summary_is_consistent stable_pandas (Some (1, 12)%Z)
           [mkExpense 500 5 "Beads" "" "" ""; mkExpense 800 10 "Wire" "" "" "";
            mkExpense 20 12 "Clasps" "" "" ""; mkExpense 7 30 "Wire" "" "" ""] [] []);
    [left; reflexivity | reflexivity].
Defined.

(** *** Grouping *)

Lemma string_leb_trans (a b c : string) :
  String.leb a b = true -> String.leb b c = true -> String.leb a c = true.
Proof.
  unfold String.leb. change String.compare with String_as_OT.cmp.
  destruct (String_as_OT.cmp a b) eqn:Hab; try discriminate;
    destruct (String_as_OT.cmp b c) eqn:Hbc; try discriminate; intros _ _.
  - apply String_as_OT.cmp_eq in Hab, Hbc. subst.
    by rewrite (proj2 (String_as_OT.cmp_eq c c) eq_refl).
  - apply String_as_OT.cmp_eq in Hab. subst. by rewrite Hbc.
  - apply String_as_OT.cmp_eq in Hbc. subst. by rewrite Hab.
  - apply String_as_OT.cmp_lt in Hab, Hbc.
    by rewrite (proj2 (String_as_OT.cmp_lt a c) (String_as_OT.lt_trans _ _ _ Hab Hbc)).
Qed.

Section Groups.

Context {K : Type} `{!EqDecision K} (leb eqb : K -> K -> bool) (key : Expense -> K).

Hypothesis eqb_eq : forall a b, eqb a b = true <-> a = b.
Hypothesis leb_total : forall a b, leb a b = true \/ leb b a = true.
Hypothesis leb_antisym : forall a b, leb a b = true -> leb b a = true -> a = b.
Hypothesis leb_trans : forall a b c, leb a b = true -> leb b c = true -> leb a c = true.

Lemma elem_of_insert_key (k : K) (keys : list K) (x : K) :
  x ∈ insert_key leb eqb k keys <-> x = k \/ x ∈ keys.
Proof.
  induction keys as [|y keys IH]; cbn [insert_key].
  - by rewrite elem_of_cons.
  - destruct (eqb k y) eqn:Heq.
    + apply eqb_eq in Heq as ->. rewrite elem_of_cons. tauto.
    + destruct (leb k y).
      * by rewrite elem_of_cons.
      * rewrite !elem_of_cons, IH. tauto.
Qed.


Lemma insert_key_hd (a k : K) (keys : list K) :
  strictly leb a k -> HdRel (strictly leb) a keys ->
  HdRel (strictly leb) a (insert_key leb eqb k keys).
Proof.
  intros Hak Hkeys. destruct keys as [|y keys]; cbn [insert_key].
  - by constructor.
  - destruct (eqb k y); [done|]. destruct (leb k y); [by constructor|].
    constructor. by inversion Hkeys.
Qed.

Lemma insert_key_sorted (k : K) (keys : list K) :
  Sorted (strictly leb) keys -> Sorted (strictly leb) (insert_key leb eqb k keys).
Proof.
  induction 1 as [|y keys Hsorted IH Hhd]; cbn [insert_key].
  - by repeat constructor.
  - destruct (eqb k y) eqn:Heq; [by constructor|].
    assert (Hne : k <> y).
    { intros Hk. apply eqb_eq in Hk. congruence. }
    destruct (leb k y) eqn:Hle.
    + constructor; [by constructor|]. by constructor.
    + constructor; [done|]. apply insert_key_hd; [|done].
      split; [|done]. destruct (leb_total k y); congruence.
Qed.


Lemma strictly_trans (a b c : K) :
  strictly leb a b -> strictly leb b c -> strictly leb a c.
Proof.
  intros [Hab Hne] [Hbc _]. split; [by eapply leb_trans|].
  intros ->. by apply Hne, leb_antisym.
Qed.

Lemma strictly_sorted_NoDup (keys : list K) : Sorted (strictly leb) keys -> NoDup keys.
Proof.
  intros Hsorted. apply Sorted_StronglySorted in Hsorted; [|exact strictly_trans].
  induction Hsorted as [|k keys _ IH Hall]; constructor; [|done].
  intros Hk. rewrite Forall_forall in Hall.
  by destruct (Hall k Hk) as [_ Hne].
Qed.









End Groups.

(** *** Category summary *)

(** The rows of a category summary whose percentages are computed by
    [percentage] from the sum of a category. *)
Lemma aggregate_rows (percentage : Q -> float64) (df : list Expense) :
  map (fun g : string * Q * Q * Z =>
         let '(name, s, m, n) := g in mkCategoryRow name s m n (percentage s))
      (aggregate df)
  = (fun g : string * list Expense =>
       mkCategoryRow g.1 (sum (amount <$> g.2))
                     (sum (amount <$> g.2) / inject_Z (len (amount <$> g.2)))
                     (len (amount <$> g.2)) (percentage (sum (amount <$> g.2))))
      <$> groupby String.leb String.eqb category df.
Proof. unfold aggregate. by rewrite map_map. Qed.

Lemma with_rows_cons {A : Type} (x : Expense) (df : list Expense) (report : outcome A) :
  with_rows (x :: df) report = report.
Proof. done. Qed.




Lemma truediv_finite (a b : Q) : ~ (b == 0)%Q -> truediv a b = Finite (a / b).
Proof.
  intros Hb. unfold truediv. destruct (Qeq_bool b 0) eqn:Heq; [|done].
  by apply Qeq_bool_iff in Heq.
Qed.

Lemma truediv_zero (a b : Q) :
  (b == 0)%Q ->
  truediv a b = if decide (0 < a)%Q then PosInf
                else if decide (a < 0)%Q then NegInf else NaN.
Proof.
  intros Hb. unfold truediv. rewrite (proj2 (Qeq_bool_iff b 0) Hb).
  destruct (decide (0 < a)%Q) as [Hpos|Hpos].
  - by rewrite (proj2 (Qgtb_lt a 0) Hpos).
  - destruct (Qgtb a 0) eqn:Ha; [by apply Qgtb_lt in Ha|].
    destruct (decide (a < 0)%Q) as [Hneg|Hneg].
    + by rewrite (proj2 (Qgtb_lt 0 a) Hneg).
    + destruct (Qgtb 0 a) eqn:Ha'; [by apply Qgtb_lt in Ha'|done].
Qed.

(** X9.  The percentages of the category summary on a table with rows.
    The terminal version gives each category the quotient of its sum and
    the total, times 100, when the total is not zero; when the total is
    zero it gives no number: plus or minus infinity for a category whose
    sum is positive or negative, NaN for one whose sum is zero.  The
    browser version gives the same rows as the terminal version when the
    total is positive, and 0 for every category when it is not. *)
Theorem category_percentages (expenses : list Expense) (budgets : list Budget)
  (dicts : list Terminal.BudgetDict) :
  expenses <> [] ->
  exists terminal browser,
    TerminalReports.category_summary (Terminal.mkManager expenses dicts)
    = Returns terminal
    /\ StreamlitReports.category_summary (Streamlit.mkManager expenses budgets)
       = Returns browser
    /\ ((0 < sum (amount <$> expenses))%Q -> terminal = browser)
    /\ (~ (sum (amount <$> expenses) == 0)%Q ->
        forall r, r ∈ terminal ->
          cs_percentage r = Finite (cs_sum r / sum (amount <$> expenses) * 100))
    /\ (~ (0 < sum (amount <$> expenses))%Q ->
        forall r, r ∈ browser -> cs_percentage r = Finite 0)
    /\ ((sum (amount <$> expenses) == 0)%Q ->
        forall r, r ∈ terminal ->
          cs_percentage r = if decide (0 < cs_sum r)%Q then PosInf
                            else if decide (cs_sum r < 0)%Q then NegInf else NaN).
Proof.
  intros Hrows. destruct expenses as [|x df]; [done|].
  unfold TerminalReports.category_summary, StreamlitReports.category_summary.
  cbn [Terminal.df Streamlit.expenses_df]. rewrite !with_rows_cons.
  eexists _, _. split; [reflexivity|]. split; [reflexivity|].
  rewrite !aggregate_rows.
  split; [|split; [|split]].
  - intros Htotal. by rewrite (proj2 (Qgtb_lt _ 0) Htotal).
  - intros Htotal r (g & -> & _)%list_elem_of_fmap. cbn [cs_percentage cs_sum].
    by rewrite truediv_finite.
  - intros Htotal r (g & -> & _)%list_elem_of_fmap. cbn [cs_percentage].
    destruct (Qgtb _ 0) eqn:Hgt; [by apply Qgtb_lt in Hgt | done].
  - intros Htotal r (g & -> & _)%list_elem_of_fmap. cbn [cs_percentage cs_sum].
    rewrite truediv_zero by done. by repeat destruct (decide _).
Qed.

Lemma category_percentages_witness :
  (exists terminal browser,
     TerminalReports.category_summary
       (Terminal.mkManager [mkExpense 30 5 "Wire" "" "" "";
                            mkExpense (-30) 6 "Beads" "" "" ""] [])
     = Returns terminal
     /\ StreamlitReports.category_summary
          (Streamlit.mkManager [mkExpense 30 5 "Wire" "" "" "";
                                mkExpense (-30) 6 "Beads" "" "" ""] [])
        = Returns browser
     /\ cs_percentage <$> terminal = [NegInf; PosInf]
     /\ cs_percentage <$> browser = [Finite 0; Finite 0])
  /\ (exists rows,
       TerminalReports.category_summary
         (Terminal.mkManager [mkExpense 30 5 "Wire" "" "" "";
                              mkExpense 10 6 "Beads" "" "" ""] [])
       = Returns rows
       /\ StreamlitReports.category_summary
            (Streamlit.mkManager [mkExpense 30 5 "Wire" "" "" "";
                                  mkExpense 10 6 "Beads" "" "" ""] [])
          = Returns rows
       /\ cs_category <$> rows = ["Beads"; "Wire"]).
Proof.
  split.
  - destruct (category_percentages
                [mkExpense 30 5 "Wire" "" "" ""; mkExpense (-30) 6 "Beads" "" "" ""] [] []
                ltac:(discriminate))
      as (terminal & browser & Hterminal & Hbrowser & _).
    exists terminal, browser. split; [exact Hterminal|]. split; [exact Hbrowser|].
    vm_compute in Hterminal, Hbrowser.
    injection Hterminal as <-. injection Hbrowser as <-. split; reflexivity.
  - destruct (category_percentages
                [mkExpense 30 5 "Wire" "" "" ""; mkExpense 10 6 "Beads" "" "" ""] [] []
                ltac:(discriminate))
      as (terminal & browser & Hterminal & Hbrowser & Hsame & _).
    rewrite <- Hsame in Hbrowser by (by vm_compute).
    exists terminal. split; [exact Hterminal|]. split; [exact Hbrowser|].
    vm_compute in Hterminal. by injection Hterminal as <-.
Defined.

(** *** Top N *)

Lemma descending_trans (a b c : Expense) : descending a b -> descending b c -> descending a c.
Proof. unfold descending. intros Hab Hbc. by eapply Qle_trans. Qed.

Lemma insert_descending_perm (x : Expense) (l : list Expense) :
  insert_descending x l ≡ₚ x :: l.
Proof.
  induction l as [|y l IH]; cbn [insert_descending]; [done|].
  destruct (Qle_bool (amount y) (amount x)); [done|].
  by rewrite IH, Permutation_swap.
Qed.

Lemma insert_descending_hd (x y : Expense) (l : list Expense) :
  descending y x -> HdRel descending y l -> HdRel descending y (insert_descending x l).
Proof.
  intros Hyx Hl. destruct l as [|z l]; cbn [insert_descending]; [by constructor|].
  destruct (Qle_bool (amount z) (amount x)); constructor; [done|].
  by inversion Hl.
Qed.

Lemma insert_descending_sorted (x : Expense) (l : list Expense) :
  Sorted descending l -> Sorted descending (insert_descending x l).
Proof.
  induction 1 as [|y l Hsorted IH Hhd]; cbn [insert_descending].
  - by repeat constructor.
  - destruct (Qle_bool (amount y) (amount x)) eqn:Hle.
    + apply Qle_bool_iff in Hle. constructor; [by constructor | by constructor].
    + constructor; [done|]. apply insert_descending_hd; [|done].
      unfold descending. apply Qlt_le_weak, Qnot_le_lt. intros Hyx.
      apply Qle_bool_iff in Hyx. congruence.
Qed.

Lemma reverse_strongly_sorted {A : Type} (R : relation A) (l : list A) :
  StronglySorted R l -> StronglySorted (flip R) (reverse l).
Proof.
  induction 1 as [|a l _ IH Hall]; [constructor|].
  rewrite reverse_cons. apply StronglySorted_app_2; [|done|by repeat constructor].
  intros x1 x2 Hx1 ->%list_elem_of_singleton. unfold flip.
  rewrite Forall_forall in Hall. apply Hall. by apply elem_of_reverse.
Qed.

Lemma strongly_sorted_impl {A : Type} (R1 R2 : relation A) (l : list A) :
  (forall x y, R1 x y -> R2 x y) -> StronglySorted R1 l -> StronglySorted R2 l.
Proof.
  intros Himpl. induction 1 as [|a l _ IH Hall]; constructor; [done|].
  eapply Forall_impl; [exact Hall|]. intros y. apply Himpl.
Qed.

(** What [nlargest] takes its rows from, when it returns any: the table in
    descending order of the amount. *)
Lemma nlargest_takes `{Pandas} (n : Z) (x : Expense) (df : list Expense) :
  exists sorted,
    StronglySorted descending sorted /\ sorted ≡ₚ x :: df
    /\ nlargest n (x :: df) = Returns (take (Z.to_nat n) sorted).
Proof.
  unfold nlargest. rewrite with_rows_cons.
  destruct (n <=? 0)%Z eqn:Hn.
  - exists (foldr insert_descending [] (x :: df)).
    apply Z.leb_le in Hn. replace (Z.to_nat n) with 0%nat by lia.
    split; [|split; [|done]].
    + apply Sorted_StronglySorted; [exact descending_trans|].
      induction (x :: df) as [|y l IH]; cbn [foldr]; [constructor|].
      by apply insert_descending_sorted.
    + induction (x :: df) as [|y l IH]; cbn [foldr]; [done|].
      by rewrite insert_descending_perm, IH.
  - destruct (len (x :: df) <=? n)%Z.
    + eexists. split; [|split; [|reflexivity]].
      * apply (strongly_sorted_impl (flip (key_le col_amount))).
        { intros a b. unfold flip, key_le, descending. cbn [key_leb].
          by rewrite Qle_bool_iff. }
        apply (reverse_strongly_sorted (key_le col_amount)).
        apply Sorted_StronglySorted; [|apply sort_values_sorted].
        intros a b c. unfold key_le. cbn [key_leb]. rewrite !Qle_bool_iff.
        apply Qle_trans.
      * by rewrite reverse_Permutation, sort_values_perm, reverse_Permutation.
    + eexists. split; [|split; [|reflexivity]].
      * apply Sorted_StronglySorted; [exact descending_trans|].
        induction (x :: df) as [|y l IH]; cbn [foldr]; [constructor|].
        by apply insert_descending_sorted.
      * induction (x :: df) as [|y l IH]; cbn [foldr]; [done|].
        by rewrite insert_descending_perm, IH.
Qed.

(** X10.  On a table with rows [top_n_expenses] of both versions returns
    the [n] largest expenses, largest first, whatever the sorting
    algorithm does with ties: as many rows as [n] asks for and the table
    has, none for an [n] that is not positive, in descending order of the
    amount, all of them rows of the table, and no row that is left out
    has a larger amount than a row that is returned.  Choice 9 of the
    terminal menu passes on the number that [int] reads from the line
    typed, whatever its sign, and ends with [ValueError] for a line that
    [int] cannot read. *)
Theorem top_n_expenses_are_largest `{Pandas} (int : string -> option Z) (n : Z)
  (expenses : list Expense) (budgets : list Budget) (dicts : list Terminal.BudgetDict) :
  expenses <> [] ->
  exists top,
    TerminalReports.top_n_expenses n (Terminal.mkManager expenses dicts) = Returns top
    /\ StreamlitReports.top_n_expenses n (Streamlit.mkManager expenses budgets)
       = Returns top
    /\ length top = Z.to_nat n `min` length expenses
    /\ StronglySorted descending top
    /\ (exists rest,
          top ++ rest ≡ₚ expenses
          /\ forall a b, a ∈ top -> b ∈ rest -> (amount b <= amount a)%Q)
    /\ forall line stdin,
         choice_9 int (Terminal.mkManager expenses dicts) (line :: stdin)
         = match int line with
           | Some n' =>
               Entered (TerminalReports.top_n_expenses n'
                          (Terminal.mkManager expenses dicts)) stdin
           | None => ValueError
           end.
Proof.
  intros Hrows. destruct expenses as [|x df]; [done|].
  destruct (nlargest_takes n x df) as (sorted & Hsorted & Hperm & Htop).
  unfold TerminalReports.top_n_expenses, StreamlitReports.top_n_expenses.
  cbn [Terminal.df Streamlit.expenses_df]. rewrite Htop.
  eexists. split; [reflexivity|]. split; [reflexivity|].
  pose proof (Permutation_length Hperm) as Hlength.
  rewrite <- (take_drop (Z.to_nat n) sorted) in Hsorted, Hperm.
  split; [|split; [|split]].
  - by rewrite length_take, Hlength.
  - by apply StronglySorted_app_1_l in Hsorted.
  - exists (drop (Z.to_nat n) sorted). split; [done|].
    intros a b Ha Hb. by apply (StronglySorted_app_1_elem_of _ _ _ a b Hsorted).
  - intros line stdin. unfold choice_9, mbind, console_bind, input, convert.
    by destruct (int line).
Qed.

Lemma top_n_expenses_are_largest_witness :
  exists top,
    @TerminalReports.top_n_expenses stable_pandas 2
      (Terminal.mkManager [mkExpense 30 5 "Wire" "" "" ""; mkExpense 50 6 "Beads" "" "" "";
                           mkExpense 20 7 "Wire" "" "" ""] [])
    = Returns top
    /\ length top = 2%nat.
Proof.
  destruct (@top_n_expenses_are_largest stable_pandas (fun _ => None) 2
              [mkExpense 30 5 "Wire" "" "" ""; mkExpense 50 6 "Beads" "" "" "";
               mkExpense 20 7 "Wire" "" "" ""] [] [] ltac:(discriminate))
    as (top & Hterminal & _ & Hlength & _).
  exists top. split; [exact Hterminal | exact Hlength].
Defined.

(** *** Trends *)

Lemma trends_of_frequency (to_period : string -> Z -> Z) (period : string)
  (df : list Expense) :
  trends_of to_period period df
  = match frequency_of period with
    | Some freq =>
        with_rows df
          (Returns ((fun g : Z * list Expense => (g.1, sum (amount <$> g.2)))
                    <$> groupby Z.leb Z.eqb (fun e => to_period freq (date e)) df))
    | None => Raises KeyError
    end.
Proof.
  unfold trends_of, frequency_of.
  destruct (String.eqb_spec period "monthly") as [->|Hm]; [done|].
  destruct (String.eqb_spec period "quarterly") as [->|Hq]; [done|].
  destruct (String.eqb_spec period "yearly") as [->|Hy]; [done|].
  by rewrite !decide_False.
Qed.

(** X11.  [trends] of both versions raises [KeyError] exactly for a period
    that is none of monthly, quarterly and yearly, whatever the table
    holds.  Choice 8 of the terminal menu passes the line typed on as it
    is, so that a blank line at its prompt ends in [KeyError]. *)
Theorem trends_key_error (to_period : string -> Z -> Z) (period : string)
  (expenses : list Expense) (budgets : list Budget) (dicts : list Terminal.BudgetDict)
  (rest : list string) :
  (TerminalReports.trends to_period period (Terminal.mkManager expenses dicts)
   = Raises KeyError
   <-> period ∉ ["monthly"; "quarterly"; "yearly"])
  /\ (StreamlitReports.trends to_period period (Streamlit.mkManager expenses budgets)
      = Raises KeyError
      <-> period ∉ ["monthly"; "quarterly"; "yearly"])
  /\ choice_8 to_period (Terminal.mkManager expenses dicts) (period :: rest)
     = Entered (TerminalReports.trends to_period period
                  (Terminal.mkManager expenses dicts)) rest
  /\ choice_8 to_period (Terminal.mkManager expenses dicts) ("" :: rest)
     = Entered (Raises KeyError) rest.
Proof.
  unfold TerminalReports.trends, StreamlitReports.trends.
  cbn [Terminal.df Streamlit.expenses_df].
  assert (Hraises : trends_of to_period period expenses = Raises KeyError
                    <-> period ∉ ["monthly"; "quarterly"; "yearly"]).
  { rewrite trends_of_frequency. unfold frequency_of.
    rewrite !not_elem_of_cons.
    destruct (decide (period = "monthly")) as [Hm|Hm];
      [|destruct (decide (period = "quarterly")) as [Hq|Hq];
        [|destruct (decide (period = "yearly")) as [Hy|Hy]]].
    4: { split; [|done]. intros _. repeat split; [done..|]. apply not_elem_of_nil. }
    all: split; [|tauto]; by destruct expenses. }
  by repeat split; try apply Hraises.
Qed.



(** ** The categories offered *)

Lemma elem_of_mask {A : Type} (mask : A -> bool) (x : A) (l : list A) :
  x ∈ List.filter mask l <-> x ∈ l /\ mask x = true.
Proof. by rewrite !list_elem_of_In, filter_In. Qed.

Lemma elem_of_unique (x : string) (l : list string) : x ∈ unique l <-> x ∈ l.
Proof.
  induction l as [|y l IH]; [done|]. cbn [unique].
  rewrite !elem_of_cons, elem_of_mask, IH, negb_true_iff.
  destruct (String.eqb_spec x y) as [->|Hne]; [tauto|].
  split; [tauto|]. intros [?|?]; [done|by right].
Qed.

Lemma unique_NoDup (l : list string) : NoDup (unique l).
Proof.
  induction l as [|y l IH]; cbn [unique]; [constructor|]. constructor.
  - rewrite elem_of_mask, String.eqb_refl. by intros [_ ?].
  - revert IH. generalize (unique l). intros u Hu.
    induction Hu as [|z u Hz _ IH]; cbn [List.filter]; [constructor|].
    destruct (negb (String.eqb z y)); [|done]. constructor; [|done].
    rewrite elem_of_mask. tauto.
Qed.

Lemma elem_of_remove (x y : string) (l : list string) :
  NoDup l -> y ∈ remove x l <-> y <> x /\ y ∈ l.
Proof.
  induction 1 as [|z l Hz _ IH]; cbn [remove].
  - rewrite elem_of_nil. tauto.
  - destruct (String.eqb_spec z x) as [->|Hne].
    + rewrite elem_of_cons. split; [|tauto]. intros Hy. split; [|by right].
      by intros ->.
    + rewrite !elem_of_cons, IH. split; [|tauto].
      intros [->|[? ?]]; [by split; [|left] | by split; [|right]].
Qed.

Lemma existsb_elem_of (x : string) (l : list string) :
  existsb (String.eqb x) l = true <-> x ∈ l.
Proof.
  rewrite existsb_exists. split.
  - intros (y & Hy & ->%String.eqb_eq). by apply list_elem_of_In.
  - intros Hx. exists x. rewrite String.eqb_refl. split; [by apply list_elem_of_In | done].
Qed.

Lemma elem_of_sorted_set (x : string) (l : list string) : x ∈ sorted_set l <-> x ∈ l.
Proof.
  induction l as [|y l IH]; [done|]. unfold sorted_set in *. cbn [foldr].
  rewrite elem_of_insert_key, elem_of_cons, IH; [done | apply String.eqb_eq].
Qed.

Lemma sorted_set_sorted (l : list string) : Sorted (strictly String.leb) (sorted_set l).
Proof.
  induction l as [|y l IH]; [constructor|]. unfold sorted_set in *. cbn [foldr].
  apply insert_key_sorted; [apply String.eqb_eq | apply String.leb_total | done].
Qed.

Lemma empty_nil {A : Type} (l : list A) : empty l = true <-> l = [].
Proof. by destruct l. Qed.

Lemma sorted_set_nil (l : list string) : sorted_set l = [] <-> l = [].
Proof.
  split; [|by intros ->]. intros Hnil. destruct l as [|x l]; [done|].
  assert (Hx : x ∈ sorted_set (x :: l)) by (apply elem_of_sorted_set; left).
  rewrite Hnil in Hx. by apply elem_of_nil in Hx.
Qed.

(** X13.  [get_categories] never offers an empty list and offers no
    category twice.  When a budget has a category other than "overall", it
    offers the categories of the budgets other than "overall", in strictly
    ascending order.  When no budget has one but there are expenses, it
    offers the categories of the expenses, "overall" among them if an
    expense has it, in strictly ascending order.  When there are neither,
    it offers Food, Transport and Jewelry Supplies, in this order. *)
Theorem get_categories_offers (budgets_df : list Budget) (expenses_df : list Expense) :
  get_categories budgets_df expenses_df <> []
  /\ NoDup (get_categories budgets_df expenses_df)
  /\ ((exists b, b ∈ budgets_df /\ budget_category b <> "overall") ->
      Sorted (strictly String.leb) (get_categories budgets_df expenses_df)
      /\ forall c, c ∈ get_categories budgets_df expenses_df
                   <-> c <> "overall" /\ exists b, b ∈ budgets_df /\ budget_category b = c)
  /\ (~ (exists b, b ∈ budgets_df /\ budget_category b <> "overall") ->
      expenses_df <> [] ->
      Sorted (strictly String.leb) (get_categories budgets_df expenses_df)
      /\ forall c, c ∈ get_categories budgets_df expenses_df
                   <-> exists e, e ∈ expenses_df /\ category e = c)
  /\ (~ (exists b, b ∈ budgets_df /\ budget_category b <> "overall") ->
      expenses_df = [] ->
      get_categories budgets_df expenses_df = default_categories).
Proof.
  unfold get_categories.
  set (cats := if existsb (String.eqb "overall") (unique (budget_category <$> budgets_df))
               then remove "overall" (unique (budget_category <$> budgets_df))
               else unique (budget_category <$> budgets_df)).
  assert (Hcats : forall c, c ∈ cats
            <-> c <> "overall" /\ exists b, b ∈ budgets_df /\ budget_category b = c).
  { intros c. subst cats.
    destruct (existsb _ _) eqn:Hoverall.
    - rewrite elem_of_remove, elem_of_unique, list_elem_of_fmap by apply unique_NoDup.
      split.
      + intros (Hc & b & -> & Hb). split; [done | by exists b].
      + intros (Hc & b & Hb & <-). split; [done | by exists b].
    - rewrite elem_of_unique, list_elem_of_fmap.
      split; [|intros (Hc & b & Hb & <-); by exists b].
      intros (b & -> & Hb). split; [|by exists b].
      intros Hc. apply not_true_iff_false in Hoverall. apply Hoverall.
      apply existsb_elem_of, elem_of_unique, list_elem_of_fmap. by exists b. }
  assert (Hnamed : (exists b, b ∈ budgets_df /\ budget_category b <> "overall")
                   <-> cats <> []).
  { split.
    - intros (b & Hb & Hne) Hnil.
      assert (Hin : budget_category b ∈ cats) by (apply Hcats; split; [done | by exists b]).
      rewrite Hnil in Hin. by apply elem_of_nil in Hin.
    - destruct cats as [|c cats'] eqn:Heq; [done|]. intros _.
      destruct (proj1 (Hcats c) ltac:(left)) as (Hc & b & Hb & <-). by exists b. }
  clearbody cats.
  destruct (empty cats) eqn:Hempty.
  - apply empty_nil in Hempty as ->.
    destruct (empty (sorted_set (unique (category <$> expenses_df)))) eqn:Hnone.
    + apply empty_nil in Hnone. apply (proj1 (sorted_set_nil _)) in Hnone.
      assert (Hexpenses : expenses_df = []).
      { destruct expenses_df as [|e l]; [done|].
        assert (He : category e ∈ unique (category <$> e :: l))
          by (apply elem_of_unique; left).
        rewrite Hnone in He. by apply elem_of_nil in He. }
      split; [done|]. split; [unfold default_categories; compute_done|].
      split; [intros ?%Hnamed; done|]. split; [done|done].
    + assert (Hsome : sorted_set (unique (category <$> expenses_df)) <> []).
      { intros Hnil%empty_nil. congruence. }
      split; [done|].
      split; [eapply strictly_sorted_NoDup, sorted_set_sorted;
              [apply String.leb_antisym | apply string_leb_trans]|].
      split; [intros ?%Hnamed; done|]. split.
      * intros _ _. split; [apply sorted_set_sorted|].
        intros c. rewrite elem_of_sorted_set, elem_of_unique, list_elem_of_fmap.
        split; [intros (e & -> & He) | intros (e & He & <-)]; by exists e.
      * intros _ ->. done.
  - assert (Hsome : cats <> []) by (intros Hnil%empty_nil; congruence).
    destruct (empty (sorted_set cats)) eqn:Hnone.
    { apply empty_nil in Hnone. by apply (proj1 (sorted_set_nil _)) in Hnone. }
    split; [intros Hnil%empty_nil; congruence|].
    split; [eapply strictly_sorted_NoDup, sorted_set_sorted;
            [apply String.leb_antisym | apply string_leb_trans]|].
    split; [|split; intros Hnone'; by apply Hnamed in Hsome].
    intros _. split; [apply sorted_set_sorted|].
    intros c. by rewrite elem_of_sorted_set.
Qed.

(** ** The menu of the terminal version *)

Lemma validate_input_cons {A : Type} (type_func : string -> option A)
  (validator : option (A -> bool)) (line : string) (rest : list string) :
  validate_input type_func validator (line :: rest)
  = match accepted type_func validator line with
    | Some value => Entered value rest
    | None => validate_input type_func validator rest
    end.
Proof.
  cbn [validate_input]. unfold accepted.
  destruct (type_func line) as [value|]; [|done].
  destruct validator as [check|]; [|done]. by destruct (check value).
Qed.

Lemma validate_input_accepted {A : Type} (type_func : string -> option A)
  (validator : option (A -> bool)) (stdin : list string) (value : A)
  (rest : list string) :
  validate_input type_func validator stdin = Entered value rest ->
  exists line, line ∈ stdin /\ accepted type_func validator line = Some value.
Proof.
  induction stdin as [|line stdin IH]; [done|]. rewrite validate_input_cons.
  destruct (accepted type_func validator line) as [v|] eqn:Hline.
  - intros [= -> ->]. exists line. split; [left | done].
  - intros (l & Hl & Hv)%IH. exists l. split; [by right | done].
Qed.

Lemma validate_input_rejected {A : Type} (type_func : string -> option A)
  (validator : option (A -> bool)) (stdin : list string) :
  Forall (fun line => accepted type_func validator line = None) stdin ->
  validate_input type_func validator stdin = EOFError.
Proof.
  induction 1 as [|line stdin Hline _ IH]; [done|].
  by rewrite validate_input_cons, Hline.
Qed.

(** X14.  [validate_input] returns the value of the first line that its
    conversion takes and its validator, if one is given, accepts; the
    lines before it are skipped and the lines after it are left on
    standard input.  It ends with [EOFError] exactly when standard input
    ends before such a line, and with no other exception. *)
Theorem validate_input_returns_first_accepted {A : Type} (type_func : string -> option A)
  (validator : option (A -> bool)) (stdin : list string) :
  match validate_input type_func validator stdin with
  | Entered value rest =>
      exists skipped line,
        stdin = skipped ++ line :: rest
        /\ Forall (fun l => accepted type_func validator l = None) skipped
        /\ accepted type_func validator line = Some value
  | EOFError => Forall (fun l => accepted type_func validator l = None) stdin
  | ValueError | NotModelled => False
  end.
Proof.
  induction stdin as [|line stdin IH]; [by constructor|].
  rewrite validate_input_cons.
  destruct (accepted type_func validator line) as [v|] eqn:Hline.
  - exists [], line. by repeat split.
  - destruct (validate_input type_func validator stdin) as [value rest| | |]; [|by constructor|done..].
    destruct IH as (skipped & l & -> & Hskipped & Hl).
    exists (line :: skipped), l. split; [done|]. split; [by constructor | done].
Qed.

Lemma accepted_index (int : string -> option Z) (n : Z) (line : string) (index : Z) :
  accepted int (Some (fun x => (0 <=? x)%Z && (x <? n)%Z)) line = Some index
  <-> int line = Some index /\ (0 <= index < n)%Z.
Proof.
  unfold accepted. destruct (int line) as [x|]; [|by split; [|intros []]].
  destruct (andb _ _) eqn:Hx.
  - apply andb_true_iff in Hx as [?%Z.leb_le ?%Z.ltb_lt].
    split; [intros [= ->]; by split | by intros []].
  - split; [done|]. intros [[= ->] [?%Z.leb_le ?%Z.ltb_lt]].
    by rewrite andb_false_iff in Hx; destruct Hx; congruence.
Qed.

Section MenuFacts.

Context (int : string -> option Z) (float_of_str : string -> option float64)
  (strptime : string -> option Z).

(** X15.  The index that choices 2 and 3 of the menu pass on is in range:
    when they get as far as to call [edit_expense] and [delete_expense],
    the call raises nothing; choice 3 then deletes the row of the index
    that the first accepted line names, choice 2 leaves the number of
    rows as it is, and neither touches the budgets.  A line that names an
    index in range is accepted at once.  On a table without rows no line
    is accepted: the two choices end only with [EOFError] at the end of
    standard input. *)
Theorem menu_index_is_in_range (now : Z) (manager : Terminal.ExpenseManager)
  (stdin : list string) :
  (forall result rest,
     choice_3 int now manager stdin = Entered result rest ->
     exists index alerts,
       (0 <= index < len (Terminal.df manager))%Z
       /\ result.1 = Returns alerts
       /\ Terminal.df result.2 = delete (Z.to_nat index) (Terminal.df manager)
       /\ Terminal.budgets result.2 = Terminal.budgets manager)
  /\ (forall result rest,
        choice_2 int float_of_str strptime now manager stdin = Entered result rest ->
        exists alerts,
          result.1 = Returns alerts
          /\ length (Terminal.df result.2) = length (Terminal.df manager)
          /\ Terminal.budgets result.2 = Terminal.budgets manager)
  /\ (forall line index,
        int line = Some index -> (0 <= index < len (Terminal.df manager))%Z ->
        choice_3 int now manager (line :: stdin)
        = Entered (Terminal.delete_expense now index manager) stdin)
  /\ (Terminal.df manager = [] ->
      choice_3 int now manager stdin = EOFError
      /\ choice_2 int float_of_str strptime now manager stdin = EOFError).
Proof.
  unfold choice_3, choice_2, mbind, console_bind, mret, console_ret.
  split; [|split; [|split]].
  - intros result rest.
    destruct (validate_input _ _ stdin) as [index rest'| | |] eqn:Hindex; [|done..].
    intros [= <- <-].
    apply validate_input_accepted in Hindex as (line & _ & [_ Hrange]%accepted_index).
    unfold Terminal.delete_expense. rewrite in_range_guard by done.
    by eexists index, _.
  - intros result rest.
    destruct (validate_input _ _ stdin) as [index rest'| | |] eqn:Hindex; [|done..].
    destruct (read_fields _ _ _ rest') as [kwargs rest''| | |]; [|done..].
    intros [= <- <-].
    apply validate_input_accepted in Hindex as (line & _ & [_ Hrange]%accepted_index).
    unfold Terminal.edit_expense. rewrite in_range_guard by done.
    eexists. split; [done|]. split; [|done]. cbn [snd Terminal.df].
    rewrite edit_loop_versions, edit_loop_alter. apply length_alter.
  - intros line index Hline Hrange. rewrite validate_input_cons.
    by rewrite (proj2 (accepted_index int _ line index)).
  - intros Hempty. rewrite validate_input_rejected; [done|].
    apply Forall_forall. intros line _.
    destruct (accepted _ _ line) as [index|] eqn:Hline; [|done].
    apply accepted_index in Hline as [_ Hrange]. rewrite Hempty in Hrange.
    unfold len in Hrange. cbn in Hrange. lia.
Qed.

End MenuFacts.

Section MenuAmounts.

Context (int : string -> option Z) (float_of_str : string -> option float64)
  (strptime : string -> option Z).


End MenuAmounts.


Section MenuEdit.

Context (int : string -> option Z) (float_of_str : string -> option float64)
  (strptime : string -> option Z).

Lemma read_field_blank (field : column) (rest : list string) :
  read_field float_of_str strptime field ("" :: rest) = Entered [] rest.
Proof. done. Qed.

Lemma read_field_amount (line : string) (rest : list string) :
  line <> "" ->
  read_field float_of_str strptime col_amount (line :: rest)
  = match float_of_str line with
    | Some (Finite q) => Entered [assign col_amount q] rest
    | Some _ => NotModelled
    | None => ValueError
    end.
Proof.
  intros Hline%String.eqb_neq.
  unfold read_field, mbind, console_bind, input, convert. rewrite Hline.
  by destruct (float_of_str line) as [[]|].
Qed.

Lemma read_field_date (line : string) (rest : list string) :
  line <> "" ->
  read_field float_of_str strptime col_date (line :: rest)
  = match strptime line with
    | Some d => Entered [assign col_date d] rest
    | None => ValueError
    end.
Proof.
  intros Hline%String.eqb_neq.
  unfold read_field, mbind, console_bind, input, convert. rewrite Hline.
  by destruct (strptime line).
Qed.

(** X17.  Choice 2 of the menu validates the index and nothing else.  With
    an index in range typed, an amount that [float] cannot read and a date
    that [strptime] cannot read end the program with [ValueError], where
    choice 1 asks for the amount again; and an amount that [float] reads as
    a number is stored in the row as it is, also when it is zero or
    negative. *)
Theorem menu_edit_does_not_validate (now : Z) (manager : Terminal.ExpenseManager)
  (index_line field_line : string) (index : Z) (rest : list string) :
  int index_line = Some index ->
  (0 <= index < len (Terminal.df manager))%Z ->
  field_line <> "" ->
  (float_of_str field_line = None ->
   choice_2 int float_of_str strptime now manager (index_line :: field_line :: rest)
   = ValueError
   /\ choice_1 float_of_str strptime now manager (field_line :: rest)
      = choice_1 float_of_str strptime now manager rest)
  /\ (strptime field_line = None ->
      choice_2 int float_of_str strptime now manager
        (index_line :: "" :: field_line :: rest)
      = ValueError)
  /\ (forall q, float_of_str field_line = Some (Finite q) ->
      exists result,
        choice_2 int float_of_str strptime now manager
          (index_line :: field_line :: "" :: "" :: "" :: "" :: "" :: rest)
        = Entered result rest
        /\ amount <$> Terminal.df result.2 !! Z.to_nat index = Some q).
Proof.
  intros Hindex Hrange Hfield.
  unfold choice_2, choice_1, mbind, console_bind.
  rewrite !validate_input_cons, (proj2 (accepted_index int _ index_line index)) by done.
  cbn [read_fields]. unfold mbind, console_bind.
  split; [|split].
  - intros Hfloat. split.
    + by rewrite read_field_amount, Hfloat.
    + unfold accepted. by rewrite Hfloat.
  - intros Hdate. by rewrite read_field_blank, read_field_date, Hdate.
  - intros q Hfloat. rewrite read_field_amount, Hfloat, !read_field_blank by done.
    eexists. split; [reflexivity|].
    unfold Terminal.edit_expense. rewrite in_range_guard by done.
    cbn [app snd Terminal.df foldl].
    destruct (lookup_lt_is_Some_2 (Terminal.df manager) (Z.to_nat index)) as [e He].
    { unfold len in Hrange. lia. }
    change (Terminal.edit_step (Z.to_nat index) (Terminal.df manager)
              (assign col_amount q))
      with (alter (set_cell col_amount (float q)) (Z.to_nat index) (Terminal.df manager)).
    rewrite list_lookup_alter, He, decide_True by done. reflexivity.
Qed.

End MenuEdit.

Lemma menu_edit_does_not_validate_witness :
  exists result,
    choice_2 (fun line => if String.eqb line "0" then Some 0%Z else None)
      (fun line => if String.eqb line "-5" then Some (Finite (-5)) else None)
      (fun _ => None) 7 (Terminal.mkManager [mkExpense 30 5 "Wire" "" "" ""] [])
      ["0"; "-5"; ""; ""; ""; ""; ""]
    = Entered result []
    /\ amount <$> Terminal.df result.2 !! Z.to_nat 0 = Some (-5)%Q.
Proof.
  apply (menu_edit_does_not_validate
           (fun line => if String.eqb line "0" then Some 0%Z else None)
           (fun line => if String.eqb line "-5" then Some (Finite (-5)) else None)
           (fun _ => None) 7 (Terminal.mkManager [mkExpense 30 5 "Wire" "" "" ""] [])
           "0" "-5" 0 []); [reflexivity | by vm_compute | discriminate | reflexivity].
Defined.
